(** * Resume section parser and ATS scorer of the placement backend

    A shallow embedding of [parse_resume], [calculate_ats_score] and the
    upload handler [upload_resume_for_ats] of [main.py], with the properties
    of the parsing and scoring core established over it.

    Conventions of the embedding.
    - A Python [str] is a [string]; a character is an [ascii].  The model
      follows Python on 7-bit ASCII text: [lower] folds [A-Z] only, and the
      white space of [strip] and of the pattern class [\s] is the ASCII white
      space of [str.isspace] (codes 9 to 13, 28 to 31 and 32).
    - A Python [int] is a [Z].
    - The dictionary [parsed_data] is a [gmap string (list string)]; the
      iteration order of a dictionary is not observed by any function below.
    - The dictionaries [section_keywords] and [scoring_breakdown], whose
      order of declaration matters, are association lists with distinct
      keys. *)

From Stdlib Require Import ZArith Lia Bool Ascii String DecimalString.
From stdpp Require Import base option list strings gmap fin_maps.

Open Scope string_scope.
Open Scope list_scope.
Open Scope nat_scope.

(** ** Python string operations *)

Module PyStr.

Definition code (c : ascii) : N := Ascii.N_of_ascii c.

Definition in_range (lo hi : N) (c : ascii) : bool :=
  ((lo <=? code c) && (code c <=? hi))%N.

Definition is_upper (c : ascii) : bool := in_range 65 90 c.
Definition is_lower (c : ascii) : bool := in_range 97 122 c.
Definition is_digit (c : ascii) : bool := in_range 48 57 c.

(** [str.isspace] on one ASCII character. *)
Definition is_space (c : ascii) : bool :=
  in_range 9 13 c || in_range 28 32 c.

Definition lower_char (c : ascii) : ascii :=
  if is_upper c then Ascii.ascii_of_N (code c + 32) else c.

(** [s.lower()] *)
Fixpoint lower (s : string) : string :=
  match s with
  | EmptyString => EmptyString
  | String c s' => String (lower_char c) (lower s')
  end.

(** [s.lstrip()] *)
Fixpoint lstrip (s : string) : string :=
  match s with
  | EmptyString => EmptyString
  | String c s' => if is_space c then lstrip s' else s
  end.

(** [s.rstrip()]: a character is kept when it is not white space or when
    something is kept after it. *)
Fixpoint rstrip (s : string) : string :=
  match s with
  | EmptyString => EmptyString
  | String c s' =>
      match rstrip s' with
      | EmptyString => if is_space c then EmptyString else String c EmptyString
      | r => String c r
      end
  end.

(** [s.strip()] *)
Definition strip (s : string) : string := rstrip (lstrip s).

(** [s.startswith(p)] *)
Fixpoint startswith (p s : string) : bool :=
  match p, s with
  | EmptyString, _ => true
  | String a p', String b s' => if Ascii.eqb a b then startswith p' s' else false
  | String _ _, EmptyString => false
  end.

(** [sub in s] *)
Fixpoint contains (sub s : string) : bool :=
  startswith sub s ||
  match s with
  | EmptyString => false
  | String _ s' => contains sub s'
  end.

(** [s.endswith(suf)] *)
Definition endswith (suf s : string) : bool :=
  let n := String.length s in
  let k := String.length suf in
  (k <=? n)%nat && String.eqb (substring (n - k) k s) suf.

(** [s.split(sep)] for a separator of one character: the pieces between
    the occurrences of [sep]; never the empty list. *)
Fixpoint split_on (sep : ascii) (s : string) : list string :=
  match s with
  | EmptyString => [EmptyString]
  | String c s' =>
      if Ascii.eqb c sep then EmptyString :: split_on sep s'
      else match split_on sep s' with
           | [] => [String c EmptyString]
           | piece :: rest => String c piece :: rest
           end
  end.

(** [sep.join(l)] *)
Fixpoint join (sep : string) (l : list string) : string :=
  match l with
  | [] => EmptyString
  | [x] => x
  | x :: rest => x +:+ sep +:+ join sep rest
  end.

(** [str(n)] for a length. *)
Definition str_of_nat (n : nat) : string :=
  NilZero.string_of_uint (Nat.to_uint n).

(** Truth value of a string or of a list: non-empty. *)
Definition truthy_str (s : string) : bool :=
  match s with EmptyString => false | _ => true end.

Definition truthy {A} (l : list A) : bool :=
  match l with [] => false | _ => true end.

Definition newline : ascii := Ascii.ascii_of_N 10.
Definition comma : ascii := Ascii.ascii_of_N 44.

End PyStr.

Import PyStr.

(** ** The fragment of Python's [re] used by the parser and the scorer

    Both patterns of [parse_resume] and the metric pattern of the scorer are
    sequences of greedy bounded repetitions of one character class, with word
    boundaries.  [match_here] is the backtracking matcher of [re] on that
    fragment: a repetition first takes as many characters as it can and gives
    them back one by one while the rest of the pattern fails. *)

Module Re.

Inductive item : Type :=
| Rep (cls : ascii → bool) (lo : nat) (hi : option nat)
| WordB.

Definition pattern : Type := list item.

Definition room (hi : option nat) : bool :=
  match hi with
  | None => true
  | Some O => false
  | Some (S _) => true
  end.

Definition less (hi : option nat) : option nat := Nat.pred <$> hi.

Fixpoint greedy (cls : ascii → bool) (k : option ascii → string → option string)
    (lo : nat) (hi : option nat) (prev : option ascii) (s : string)
    {struct s} : option string :=
  let stop := match lo with O => k prev s | S _ => None end in
  match s with
  | EmptyString => stop
  | String c s' =>
      if cls c && room hi then
        match greedy cls k (Nat.pred lo) (less hi) (Some c) s' with
        | Some m => Some (String c m)
        | None => stop
        end
      else stop
  end.

(** [\w] on ASCII. *)
Definition is_word (c : ascii) : bool :=
  is_upper c || is_lower c || is_digit c || Ascii.eqb c "_".

Definition word_before (prev : option ascii) : bool :=
  match prev with Some c => is_word c | None => false end.

Definition word_after (s : string) : bool :=
  match s with String c _ => is_word c | EmptyString => false end.

(** [\b]: exactly one side is a word character. *)
Definition at_boundary (prev : option ascii) (s : string) : bool :=
  xorb (word_before prev) (word_after s).

(** The text matched by the pattern at the start of [s], [prev] being the
    character before it. *)
Fixpoint match_here (re : pattern) : option ascii → string → option string :=
  match re with
  | [] => λ _ _, Some EmptyString
  | Rep cls lo hi :: re' => greedy cls (match_here re') lo hi
  | WordB :: re' =>
      λ prev s, if at_boundary prev s then match_here re' prev s else None
  end.

(** [re.findall(re, s)] for a pattern without groups: the matches from left
    to right, the scan resuming after each match; [skip] is the number of
    characters of the last match still to step over. *)
Fixpoint findall_from (re : pattern) (prev : option ascii) (skip : nat)
    (s : string) {struct s} : list string :=
  match skip with
  | S n =>
      match s with
      | EmptyString => []
      | String c s' => findall_from re (Some c) n s'
      end
  | O =>
      let next :=
        match s with
        | EmptyString => λ _, []
        | String c s' => λ n, findall_from re (Some c) n s'
        end in
      match match_here re prev s with
      | Some m => m :: next (Nat.pred (String.length m))
      | None => next O
      end
  end.

Definition findall (re : pattern) (s : string) : list string :=
  findall_from re None 0 s.

(** [bool(re.search(re, s))] *)
Fixpoint search_from (re : pattern) (prev : option ascii) (s : string) : bool :=
  match match_here re prev s with
  | Some _ => true
  | None =>
      match s with
      | EmptyString => false
      | String c s' => search_from re (Some c) s'
      end
  end.

Definition search (re : pattern) (s : string) : bool := search_from re None s.

(** Character classes. *)
Definition one_of (chars : string) (c : ascii) : bool :=
  contains (String c EmptyString) chars.

Definition alnum (c : ascii) : bool := is_upper c || is_lower c || is_digit c.

Definition opt (cls : ascii → bool) : item := Rep cls 0 (Some 1).
Definition plus (cls : ascii → bool) : item := Rep cls 1 None.
Definition between (cls : ascii → bool) (lo hi : nat) : item := Rep cls lo (Some hi).
Definition exactly_one (cls : ascii → bool) : item := Rep cls 1 (Some 1).

End Re.

(** ** [parse_resume] *)

Module Parser.

(** [section_keywords], in the order of its declaration. *)
Definition section_keywords : list (string * list string) :=
  [ ("personal_info", ["name"; "contact"; "email"; "phone"; "address"; "profile"]);
    ("education", ["education"; "academic"; "qualification"; "degree"; "university"; "college"]);
    ("experience", ["experience"; "employment"; "work history"; "professional experience"]);
    ("projects", ["projects"; "personal projects"; "academic projects"]);
    ("skills", ["skills"; "technical skills"; "competencies"; "expertise"]);
    ("certifications", ["certifications"; "certificates"; "licenses"]);
    ("research", ["research"; "research papers"; "publications"]);
    ("thesis", ["thesis"; "dissertation"]);
    ("startups", ["startup"; "entrepreneurship"; "venture"]);
    ("achievements", ["achievements"; "awards"; "honors"; "accomplishments"]);
    ("languages", ["languages"; "language proficiency"]);
    ("interests", ["interests"; "hobbies"]) ].

(** The keys of the initial [parsed_data], each bound to the empty list. *)
Definition section_keys : list string :=
  [ "personal_info"; "education"; "experience"; "projects"; "skills";
    "certifications"; "research"; "thesis"; "startups"; "achievements";
    "languages"; "interests"; "other_sections" ].

Definition initial_parsed_data : gmap string (list string) :=
  list_to_map ((λ k, (k, [])) <$> section_keys).

(** [email_pattern]:
    [\b[A-Za-z0-9._%+-]+@[A-Za-z0-9.-]+\.[A-Z|a-z]{2,}\b] *)
Definition email_pattern : Re.pattern :=
  [ Re.WordB;
    Re.plus (λ c, Re.alnum c || Re.one_of "._%+-" c);
    Re.exactly_one (Re.one_of "@");
    Re.plus (λ c, Re.alnum c || Re.one_of ".-" c);
    Re.exactly_one (Re.one_of ".");
    Re.Rep (λ c, is_upper c || is_lower c || Re.one_of "|" c) 2 None;
    Re.WordB ].

(** The class [[-\s\.]]. *)
Definition separator (c : ascii) : bool := Re.one_of "-." c || is_space c.

(** [phone_pattern]:
    [[\+]?[(]?[0-9]{1,4}[)]?[-\s\.]?[(]?[0-9]{1,4}[)]?[-\s\.]?[0-9]{1,4}[-\s\.]?[0-9]{1,9}] *)
Definition phone_pattern : Re.pattern :=
  [ Re.opt (Re.one_of "+");
    Re.opt (Re.one_of "(");
    Re.between is_digit 1 4;
    Re.opt (Re.one_of ")");
    Re.opt separator;
    Re.opt (Re.one_of "(");
    Re.between is_digit 1 4;
    Re.opt (Re.one_of ")");
    Re.opt separator;
    Re.between is_digit 1 4;
    Re.opt separator;
    Re.between is_digit 1 9 ].

(** [parsed_data[key].append(x)] and [parsed_data[key].extend(xs)].  Every
    key the parser uses is a key of [initial_parsed_data]
    ([header_key_known] below), so the lookup never raises. *)
Definition extend (key : string) (xs : list string)
    (data : gmap string (list string)) : gmap string (list string) :=
  alter (λ l, l ++ xs) key data.

(** The inner loop [for keyword in keywords]: does some keyword pass the
    test [keyword in line_lower and len(line) < 50]? *)
Fixpoint keyword_loop (keywords : list string) (line : string) : bool :=
  match keywords with
  | [] => false
  | keyword :: rest =>
      if contains keyword (lower line) && (String.length line <? 50)%nat
      then true
      else keyword_loop rest line
  end.

(** The outer loop [for section_key, keywords in section_keywords.items()]:
    the key at which the scan breaks, [None] when [is_header] stays false. *)
Fixpoint section_loop (table : list (string * list string)) (line : string)
    : option string :=
  match table with
  | [] => None
  | (section_key, keywords) :: rest =>
      if keyword_loop keywords line then Some section_key
      else section_loop rest line
  end.

Definition header_key (line : string) : option string :=
  section_loop section_keywords line.

(** The variables of the line scan. *)
Record scan : Type := Scan {
  parsed_data : gmap string (list string);
  current_section : option string;
  current_content : list string
}.

(** [if current_section and current_content:
       parsed_data[current_section].extend(current_content)];
    [current_section] is [None] or a key of [section_keywords], none of
    which is the empty string ([header_key_nonempty] below). *)
Definition flush (st : scan) : gmap string (list string) :=
  match current_section st with
  | Some key =>
      if truthy (current_content st)
      then extend key (current_content st) (parsed_data st)
      else parsed_data st
  | None => parsed_data st
  end.

(** One iteration of [for line in lines]. *)
Definition scan_line (st : scan) (raw : string) : scan :=
  let line := strip raw in
  if negb (truthy_str line) then st
  else
    match header_key line with
    | Some section_key => Scan (flush st) (Some section_key) []
    | None =>
        match current_section st with
        | Some _ => Scan (parsed_data st) (current_section st) (current_content st ++ [line])
        | None => Scan (extend "personal_info" [line] (parsed_data st)) None (current_content st)
        end
    end.

(** The contact lines found by the two pattern scans of the joined text. *)
Definition contact_lines (lines : list string) : list string :=
  let all_text := join " " lines in
  let emails := Re.findall email_pattern all_text in
  let phones := Re.findall phone_pattern all_text in
  match emails with e :: _ => ["Email: " +:+ e] | [] => [] end ++
  match phones with p :: _ => ["Phone: " +:+ p] | [] => [] end.

Definition scan_lines (lines : list string) : scan :=
  foldl scan_line
    (Scan (extend "personal_info" (contact_lines lines) initial_parsed_data) None [])
    lines.

Definition parse_lines (lines : list string) : gmap string (list string) :=
  filter (λ kv, kv.2 ≠ []) (flush (scan_lines lines)).

Definition parse_resume (text : string) : gmap string (list string) :=
  parse_lines (split_on newline text).

End Parser.

(** ** [calculate_ats_score]

    The function threads three variables through eight blocks, one per
    criterion: the running [score], the [feedback] list and the
    [scoring_breakdown] dictionary.  Each block below takes them as an [acc]
    and gives back its own sub-score with the updated [acc].  The literals
    that are not ASCII are held in their UTF-8 encoding.  The fields
    [percentage], [rating] and [rating_color] of the report go through
    floating point and are left out. *)

Module Scorer.

(** An entry [{"score": s, "max": m}] of [scoring_breakdown]. *)
Record entry : Type := Entry { entry_score : Z; entry_max : Z }.

Record acc : Type := Acc {
  acc_score : Z;
  acc_feedback : list string;
  acc_breakdown : list (string * entry)
}.

(** [feedback.append(line)] *)
Definition say (line : string) (a : acc) : acc :=
  Acc (acc_score a) (acc_feedback a ++ [line]) (acc_breakdown a).

(** [scoring_breakdown[name] = {"score": s, "max": m}; score += s], for a
    name not yet in the dictionary. *)
Definition book (name : string) (s m : Z) (a : acc) : acc :=
  Acc (acc_score a + s) (acc_feedback a) (acc_breakdown a ++ [(name, Entry s m)]).

(** [parsed_data.get(key, [])] *)
Definition get (parsed_data : gmap string (list string)) (key : string) : list string :=
  default [] (parsed_data !! key).

Definition len {A} (l : list A) : Z := Z.of_nat (length l).

(** [any(word in item.lower() for item in items)] *)
Definition any_mentions (word : string) (items : list string) : bool :=
  existsb (λ item, contains word (lower item)) items.

Definition contact_block (parsed_data : gmap string (list string)) (a : acc) : Z * acc :=
  let contact_score := 0%Z in
  let has_email := any_mentions "email" (get parsed_data "personal_info") in
  let has_phone := any_mentions "phone" (get parsed_data "personal_info") in
  let '(contact_score, a) :=
    if has_email then ((contact_score + 5)%Z, say "✓ Email address found" a)
    else (contact_score, say "✗ Missing email address" a) in
  let '(contact_score, a) :=
    if has_phone then ((contact_score + 5)%Z, say "✓ Phone number found" a)
    else (contact_score, say "✗ Missing phone number" a) in
  (contact_score, book "Contact Information" contact_score 10 a).

Definition education_block (parsed_data : gmap string (list string)) (a : acc) : Z * acc :=
  let education_items := get parsed_data "education" in
  let '(education_score, a) :=
    if truthy education_items then
      (Z.min 15 (len education_items * 5),
       say ("✓ Education section found with "
            +:+ str_of_nat (length education_items) +:+ " entries") a)
    else (0%Z, say "✗ No education section found" a) in
  (education_score, book "Education" education_score 15 a).

(** The pattern [\d+[%+]?]. *)
Definition metric_pattern : Re.pattern :=
  [ Re.plus is_digit; Re.opt (Re.one_of "%+") ].

Definition experience_block (parsed_data : gmap string (list string)) (a : acc) : Z * acc :=
  let experience_items := get parsed_data "experience" in
  let '(experience_score, a) :=
    if truthy experience_items then
      let experience_score := Z.min 25 (len experience_items * 5) in
      let a := say ("✓ Work experience section found with "
                    +:+ str_of_nat (length experience_items) +:+ " entries") a in
      let has_metrics := existsb (Re.search metric_pattern) experience_items in
      if has_metrics then
        ((experience_score + 5)%Z,
         say "✓ Quantifiable achievements found (numbers/metrics)" a)
      else (experience_score, a)
    else (0%Z, say "✗ No work experience section found" a) in
  (experience_score, book "Work Experience" (Z.min experience_score 25) 25 a).

(** [sum(len(item.split(",")) for item in skills_items)] *)
Definition count_skills (skills_items : list string) : Z :=
  foldr (λ item total, (len (split_on comma item) + total)%Z) 0%Z skills_items.

Definition skills_block (parsed_data : gmap string (list string)) (a : acc) : Z * acc :=
  let skills_items := get parsed_data "skills" in
  let '(skills_score, a) :=
    if truthy skills_items then
      let skills_count := count_skills skills_items in
      (Z.min 15 skills_count,
       say ("✓ Skills section found with approximately "
            +:+ NilZero.string_of_int (Z.to_int skills_count) +:+ " skills") a)
    else (0%Z, say "✗ No skills section found" a) in
  (skills_score, book "Skills" skills_score 15 a).

Definition projects_block (parsed_data : gmap string (list string)) (a : acc) : Z * acc :=
  let projects_items := get parsed_data "projects" in
  let '(projects_score, a) :=
    if truthy projects_items then
      (Z.min 10 (len projects_items * 3),
       say ("✓ Projects section found with "
            +:+ str_of_nat (length projects_items) +:+ " projects") a)
    else (0%Z, say "⚠ No projects section found" a) in
  (projects_score, book "Projects" projects_score 10 a).

Definition cert_block (parsed_data : gmap string (list string)) (a : acc) : Z * acc :=
  let cert_items := get parsed_data "certifications" in
  let '(cert_score, a) :=
    if truthy cert_items then
      (Z.min 8 (len cert_items * 2),
       say ("✓ Certifications found: "
            +:+ str_of_nat (length cert_items) +:+ " certificates") a)
    else (0%Z, say "⚠ No certifications listed" a) in
  (cert_score, book "Certifications" cert_score 8 a).

Definition research_block (parsed_data : gmap string (list string)) (a : acc) : Z * acc :=
  let research_items := get parsed_data "research" in
  let '(research_score, a) :=
    if truthy research_items then
      (Z.min 7 (len research_items * 3),
       say ("✓ Research/Publications found: "
            +:+ str_of_nat (length research_items) +:+ " papers") a)
    else (0%Z, a) in
  (research_score, book "Research & Publications" research_score 7 a).

Definition action_verbs : list string :=
  [ "developed"; "designed"; "implemented"; "managed"; "led"; "created";
    "built"; "improved"; "optimized"; "achieved"; "delivered"; "launched" ].

(** [len([k for k, v in parsed_data.items() if v])] *)
Definition section_count (parsed_data : gmap string (list string)) : Z :=
  Z.of_nat (size (filter (λ kv, kv.2 ≠ []) parsed_data)).

(** [sum(1 for verb in action_verbs if verb in text_lower)] *)
Definition found_verbs (full_text : string) : Z :=
  let text_lower := lower full_text in
  len (List.filter (λ verb, contains verb text_lower) action_verbs).

Definition formatting_block (parsed_data : gmap string (list string))
    (full_text : string) (a : acc) : Z * acc :=
  let formatting_score := 0%Z in
  let '(formatting_score, a) :=
    if (section_count parsed_data >=? 4)%Z then
      ((formatting_score + 5)%Z, say "✓ Well-structured with multiple sections" a)
    else (formatting_score, a) in
  let found := found_verbs full_text in
  let '(formatting_score, a) :=
    if (found >=? 5)%Z then
      ((formatting_score + 5)%Z,
       say ("✓ Strong action verbs used ("
            +:+ NilZero.string_of_int (Z.to_int found) +:+ " found)") a)
    else if (found >=? 2)%Z then
      ((formatting_score + 3)%Z,
       say ("⚠ Some action verbs used ("
            +:+ NilZero.string_of_int (Z.to_int found) +:+ " found)") a)
    else (formatting_score, a) in
  (formatting_score, book "Formatting & Keywords" formatting_score 10 a).

(** [if sub_score < threshold: recommendations.append(message)] *)
Definition advise (sub_score threshold : Z) (message : string)
    (recommendations : list string) : list string :=
  if (sub_score <? threshold)%Z then recommendations ++ [message] else recommendations.

Record report : Type := Report {
  score : Z;
  max_score : Z;
  feedback : list string;
  scoring_breakdown : list (string * entry);
  recommendations : list string
}.

Definition calculate_ats_score (parsed_data : gmap string (list string))
    (full_text : string) : report :=
  let a := Acc 0 [] [] in
  let max_score := 100%Z in
  let '(contact_score, a) := contact_block parsed_data a in
  let '(education_score, a) := education_block parsed_data a in
  let '(experience_score, a) := experience_block parsed_data a in
  let '(skills_score, a) := skills_block parsed_data a in
  let '(projects_score, a) := projects_block parsed_data a in
  let '(cert_score, a) := cert_block parsed_data a in
  let '(research_score, a) := research_block parsed_data a in
  let '(formatting_score, a) := formatting_block parsed_data full_text a in
  let recommendations :=
    advise formatting_score 7 "Use more action verbs and improve resume structure"
    (advise cert_score 4 "Add professional certifications if available"
    (advise projects_score 5 "Include relevant projects to showcase your abilities"
    (advise skills_score 10 "Expand your skills section with relevant technical and soft skills"
    (advise experience_score 15 "Add more work experience details with quantifiable achievements"
    (advise education_score 10 "Add or expand your education section"
    (advise contact_score 10 "Add complete contact information (email and phone)" [])))))) in
  Report (acc_score a) max_score (acc_feedback a) (acc_breakdown a)
    (if truthy recommendations then recommendations
     else ["Your resume looks great! Keep it updated."]).

(** [scoring_breakdown[name]["score"]] *)
Fixpoint lookup_entry (name : string) (d : list (string * entry)) : option entry :=
  match d with
  | [] => None
  | (k, e) :: rest => if String.eqb k name then Some e else lookup_entry name rest
  end.

Definition sub_score (name : string) (r : report) : option Z :=
  entry_score <$> lookup_entry name (scoring_breakdown r).

(** The lines a block appends to [feedback] and the sub-score it adds to
    [score], read off a run of the block on empty accumulators. *)
Definition said (block : acc → Z * acc) : list string :=
  acc_feedback (block (Acc 0 [] [])).2.

Definition booked (block : acc → Z * acc) : Z :=
  acc_score (block (Acc 0 [] [])).2.

(** The block adds [booked block] to the score, appends [said block] to
    the feedback and the entry [name] to the breakdown, whatever the
    accumulators it starts from. *)
Definition appends (block : acc → Z * acc) (name : string) (cap : Z) : Prop :=
  ∀ a, (block a).2 =
       Acc (acc_score a + booked block) (acc_feedback a ++ said block)
         (acc_breakdown a ++ [(name, Entry (booked block) cap)]).

(** A call from Python can also pass [None] for either argument: the
    first attribute access on it, [parsed_data.get] or [full_text.lower],
    raises [AttributeError]. *)
Inductive exception : Type := AttributeError.

Inductive outcome (A : Type) : Type :=
| Returned (a : A)
| Raised (e : exception).
Arguments Returned {A} a.
Arguments Raised {A} e.

Definition calculate_ats_score_dyn (parsed_data : option (gmap string (list string)))
    (full_text : option string) : outcome report :=
  match parsed_data with
  | None => Raised AttributeError
  | Some pd =>
      match full_text with
      | None => Raised AttributeError
      | Some text => Returned (calculate_ats_score pd text)
      end
  end.

End Scorer.

(** ** The upload handler [upload_resume_for_ats]

    The two document libraries and the decoding of the uploaded bytes are
    outside the repository; the handler is parameterised by them.  The
    handler is run in a writer that logs the calls it makes to the
    extractors, to the parser and to the scorer. *)

Module Handler.

Inductive call : Type :=
| ExtractTextFromPdf
| ExtractTextFromDocx
| ParseResume
| CalculateAtsScore.

Record upload : Type := Upload { filename : string; content : string }.

(** [authenticated]: [get_current_user()] is not [None];
    [file_part]: [request.files["file"]], [None] when the key is absent. *)
Record request : Type := Request {
  authenticated : bool;
  file_part : option upload
}.

Inductive response : Type :=
| Success (name : string) (parsed_data : gmap string (list string))
    (ats_score : Scorer.report)
| Failure (status : Z) (message : string).

Section WithLibraries.

(** [inl text], or [inr message] when the library raises. *)
Variable extract_text_from_pdf : string → string + string.
Variable extract_text_from_docx : string → string + string.
(** [bytes.decode("utf-8", errors="ignore")] *)
Variable decode_utf8 : string → string.

(** The [if]/[elif] chain on the extension; [None] is the final [else]. *)
Definition extract (name : string) (file : upload)
    : option (list call * (string + string)) :=
  if endswith ".pdf" name then
    Some ([ExtractTextFromPdf], extract_text_from_pdf (content file))
  else if endswith ".docx" name then
    Some ([ExtractTextFromDocx], extract_text_from_docx (content file))
  else if endswith ".txt" name then
    Some ([], inl (decode_utf8 (content file)))
  else None.

Definition upload_resume_for_ats (req : request) : list call * response :=
  if negb (authenticated req) then ([], Failure 401 "Not authenticated")
  else
    match file_part req with
    | None => ([], Failure 400 "No file provided")
    | Some file =>
        if String.eqb (filename file) EmptyString then ([], Failure 400 "No file selected")
        else
          match extract (lower (filename file)) file with
          | None =>
              ([], Failure 400 "Unsupported file format. Please upload PDF, DOCX, or TXT")
          | Some (calls, inr message) =>
              (calls, Failure 500 ("Error processing file: " +:+ message))
          | Some (calls, inl text) =>
              let parsed_data := Parser.parse_resume text in
              let ats_score := Scorer.calculate_ats_score parsed_data text in
              (calls ++ [ParseResume; CalculateAtsScore],
               Success (filename file) parsed_data ats_score)
          end
    end.

End WithLibraries.

End Handler.

(** ** The text extractors and the link check

    [extract_text_from_pdf] and [extract_text_from_docx] run the same loop,
    [text += unit + "\n"], over the texts the document library yields: the
    pages of a PDF ([page.extract_text()]) and the paragraphs of a DOCX
    ([paragraph.text]), in document order.  The library call is outside the
    repository; the functions below take its result. *)

Module Extractor.

Definition extract_text_from_pdf (pages : list string) : string :=
  foldl (λ text page, text +:+ (page +:+ String newline EmptyString)) EmptyString pages.

Definition extract_text_from_docx (paragraphs : list string) : string :=
  foldl (λ text paragraph, text +:+ (paragraph +:+ String newline EmptyString))
    EmptyString paragraphs.

(** [validate_drive_link]; [if not link] covers the empty string. *)
Definition validate_drive_link (link : string) : bool :=
  if negb (truthy_str link) then false
  else startswith "https://drive.google.com/" link
       || startswith "https://docs.google.com/" link.

End Extractor.

(** ** The handler [ats_from_saved_resume]

    The user record is read for its [resumeUrl] only ([None] when the key is
    absent); the download, the two document libraries and the decoding of
    bytes are parameters.  As for the upload handler, a writer logs the calls,
    here with the address of each download.  The decoding with
    [errors="ignore"] does not raise, so the [except] around it, the only
    place that answers with the unsupported-format message, is never
    entered. *)

Module SavedResume.

Inductive call : Type :=
| Download (url : string)
| ExtractTextFromPdf
| ExtractTextFromDocx
| ParseResume
| CalculateAtsScore.

(** [response.status_code], [response.headers.get("Content-Type")] and
    [response.content]. *)
Record http_response : Type := HttpResponse {
  status_code : Z;
  content_type_header : option string;
  content : string
}.

Inductive response : Type :=
| Success (parsed_data : gmap string (list string)) (ats_score : Scorer.report)
| Failure (status : Z) (message : string).

(** The pattern [/d/([^/]+)]: its group is the match without the three
    characters of [/d/]. *)
Definition file_id_pattern : Re.pattern :=
  [ Re.exactly_one (Re.one_of "/");
    Re.exactly_one (Re.one_of "d");
    Re.exactly_one (Re.one_of "/");
    Re.plus (λ c, negb (Re.one_of "/" c)) ].

Definition group_1 (m : string) : string :=
  substring 3 (String.length m - 3) m.

(** The conversion of a share address into a download address;
    [re.search] gives the first match of the scan. *)
Definition direct_url (resume_url : string) : string :=
  if contains "drive.google.com/file/d/" resume_url then
    match Re.findall file_id_pattern resume_url with
    | m :: _ => "https://drive.google.com/uc?export=download&id=" +:+ group_1 m
    | [] => resume_url
    end
  else resume_url.

Section WithServices.

(** [inl r], or [inr message] when the call raises. *)
Variable requests_get : string → http_response + string.
Variable extract_text_from_pdf : string → string + string.
Variable extract_text_from_docx : string → string + string.
Variable decode_utf8 : string → string.

(** The [if]/[elif]/[else] chain on the address and the content type. *)
Definition extract (resume_url content_type : string) (r : http_response)
    : list call * (string + string) :=
  if contains ".pdf" resume_url || contains "application/pdf" content_type then
    ([ExtractTextFromPdf], extract_text_from_pdf (content r))
  else if contains ".docx" resume_url
          || contains "application/vnd.openxmlformats-officedocument.wordprocessingml.document"
               content_type then
    ([ExtractTextFromDocx], extract_text_from_docx (content r))
  else ([], inl (decode_utf8 (content r))).

(** [current_user]: [None] when not authenticated, otherwise the value of
    [resumeUrl] in the user record. *)
Definition ats_from_saved_resume (current_user : option (option string))
    : list call * response :=
  match current_user with
  | None => ([], Failure 401 "Not authenticated")
  | Some user =>
      let resume_url := strip (default EmptyString user) in
      if negb (truthy_str resume_url) then
        ([], Failure 400 "No resume URL found for user")
      else if negb (Extractor.validate_drive_link resume_url) then
        ([], Failure 400 "Invalid resume URL. Must be a Google Drive or Docs link")
      else
        let url := direct_url resume_url in
        match requests_get url with
        | inr _ => ([Download url], Failure 500 "Failed to analyze resume from saved link")
        | inl r =>
            if negb (status_code r =? 200)%Z then
              ([Download url], Failure 502 "Failed to download resume from Drive")
            else
              let content_type := lower (default EmptyString (content_type_header r)) in
              match extract resume_url content_type r with
              | (calls, inr _) =>
                  (Download url :: calls,
                   Failure 500 "Failed to analyze resume from saved link")
              | (calls, inl text) =>
                  if negb (truthy_str (strip text)) then
                    (Download url :: calls,
                     Failure 400 "Could not extract text from resume")
                  else
                    let parsed_data := Parser.parse_resume text in
                    let ats_score := Scorer.calculate_ats_score parsed_data text in
                    (Download url :: calls ++ [ParseResume; CalculateAtsScore],
                     Success parsed_data ats_score)
              end
        end
  end.

End WithServices.

End SavedResume.

(** ** Notions used to state the properties *)

(** Number of decimal digits of a string. *)
Fixpoint count_digits (s : string) : nat :=
  match s with
  | EmptyString => 0
  | String c s' => (if is_digit c then 1 else 0) + count_digits s'
  end.

Fixpoint has_digit (s : string) : bool :=
  match s with
  | EmptyString => false
  | String c s' => is_digit c || has_digit s'
  end.

Fixpoint all_chars (cls : ascii → bool) (s : string) : bool :=
  match s with
  | EmptyString => true
  | String c s' => cls c && all_chars cls s'
  end.

Definition fits (hi : option nat) (n : nat) : Prop :=
  match hi with
  | None => True
  | Some h => n ≤ h
  end.

(** The strings of a pattern, word boundaries set aside: one piece per
    repetition, made of characters of its class, of a length within its
    bounds. *)
Fixpoint pieces (re : Re.pattern) (m : string) : Prop :=
  match re with
  | [] => m = EmptyString
  | Re.Rep cls lo hi :: re' =>
      ∃ m1 m2, m = m1 +:+ m2 ∧ all_chars cls m1 = true
               ∧ lo ≤ String.length m1 ∧ fits hi (String.length m1) ∧ pieces re' m2
  | Re.WordB :: re' => pieces re' m
  end.

(** The Work Experience sub-score in the words of the specification:
    [min(25, count*5)], plus 5 when some line holds a digit, capped at 25. *)
Definition experience_formula (items : list string) : Z :=
  Z.min 25 (Z.min 25 (Scorer.len items * 5)
            + (if existsb has_digit items then 5 else 0)).

(** Sums over the entries of a scoring breakdown. *)
Definition total_score (d : list (string * Scorer.entry)) : Z :=
  foldr (λ e t, (Scorer.entry_score e.2 + t)%Z) 0%Z d.

Definition total_max (d : list (string * Scorer.entry)) : Z :=
  foldr (λ e t, (Scorer.entry_max e.2 + t)%Z) 0%Z d.

(** The lines of a text as the line scan sees them: stripped, the blank
    ones dropped; among them the header lines and the content lines. *)
Definition seen (raws : list string) : list string :=
  List.filter truthy_str (strip <$> raws).

Definition is_header (line : string) : bool :=
  match Parser.header_key line with Some _ => true | None => false end.

Definition nonblank_lines (text : string) : list string :=
  seen (split_on newline text).

Definition header_lines (text : string) : list string :=
  List.filter is_header (nonblank_lines text).

Definition content_lines (text : string) : list string :=
  List.filter (λ line, negb (is_header line)) (nonblank_lines text).

(** All the lines of a section map, section after section. *)
Definition stored_lines (m : gmap string (list string)) : list string :=
  concat ((map_to_list m).*2).

(** What the line scan maintains: the lines stored or pending are the lines
    taken so far, every section key is bound, and content is pending only
    under a current section, which is a section key. *)
Definition scan_inv (st : Parser.scan) (taken : list string) : Prop :=
  stored_lines (Parser.parsed_data st) ++ Parser.current_content st ≡ₚ taken
  ∧ (∀ key, key ∈ Parser.section_keys → is_Some (Parser.parsed_data st !! key))
  ∧ match Parser.current_section st with
    | Some key => key ∈ Parser.section_keys
    | None => Parser.current_content st = []
    end.

(** Some keyword of the list occurs in the lower-cased line. *)
Definition mentions (keywords : list string) (line : string) : Prop :=
  ∃ keyword, keyword ∈ keywords ∧ contains keyword (lower line) = true.

(** [key] is the first key of the table one of whose keywords occurs in the
    line. *)
Definition first_match (table : list (string * list string)) (key line : string) : Prop :=
  ∃ before keywords after,
    table = before ++ (key, keywords) :: after
    ∧ mentions keywords line
    ∧ Forall (λ e, ¬ mentions e.2 line) before.

(** The content lines of a section, in the words of the parsing rule: a
    content line belongs to the section of the last header before it, and to
    [personal_info] when no header comes before it.  [lines] are the lines as
    the scan sees them, [current] is the section open before them. *)
Fixpoint owned_by (key : string) (current : option string) (lines : list string)
    : list string :=
  match lines with
  | [] => []
  | line :: rest =>
      match Parser.header_key line with
      | Some section_key => owned_by key (Some section_key) rest
      | None =>
          (if String.eqb (default "personal_info" current) key then [line] else [])
          ++ owned_by key current rest
      end
  end.

(** Number of occurrences of a character. *)
Fixpoint count_char (c : ascii) (s : string) : nat :=
  match s with
  | EmptyString => 0
  | String d s' => (if Ascii.eqb d c then 1 else 0) + count_char c s'
  end.

(** The thresholds of the recommendations, on the entries of the breakdown. *)
Definition meets_thresholds (r : Scorer.report) : Prop :=
  ∃ contact education experience skills projects cert formatting,
    Scorer.sub_score "Contact Information" r = Some contact
    ∧ Scorer.sub_score "Education" r = Some education
    ∧ Scorer.sub_score "Work Experience" r = Some experience
    ∧ Scorer.sub_score "Skills" r = Some skills
    ∧ Scorer.sub_score "Projects" r = Some projects
    ∧ Scorer.sub_score "Certifications" r = Some cert
    ∧ Scorer.sub_score "Formatting & Keywords" r = Some formatting
    ∧ (10 ≤ contact ∧ 10 ≤ education ∧ 15 ≤ experience ∧ 10 ≤ skills
       ∧ 5 ≤ projects ∧ 4 ≤ cert ∧ 7 ≤ formatting)%Z.

(** The lines a state of the scan holds for a section: those stored and,
    for the current section, those pending. *)
Definition held (st : Parser.scan) (key : string) : list string :=
  Scorer.get (Parser.parsed_data st) key
  ++ match Parser.current_section st with
     | Some current => if String.eqb current key then Parser.current_content st else []
     | None => []
     end.

(** ** The scenario of the specification *)

(** The nine lines of the scenario, joined by the newline character. *)
Definition scenario_text : string :=
  join (String newline EmptyString)
    [ "John Doe"; "john@example.com"; "9876543210"; EmptyString; "Education";
      "BTech Computer Science, XYZ University"; EmptyString; "Skills";
      "Python, Go, SQL" ].

Example scenario_lines :
  split_on newline scenario_text =
  [ "John Doe"; "john@example.com"; "9876543210"; EmptyString; "Education";
    "BTech Computer Science, XYZ University"; EmptyString; "Skills"; "Python, Go, SQL" ].
Proof. reflexivity. Qed.

(** C1, as the code has it.  On the scenario text the parser stores the
    e-mail line and the phone line a second time, as the lines before the
    first header, so [personal_info] has five entries; the line
    "BTech Computer Science, XYZ University" is shorter than 50 characters and
    contains the keyword "university", so it is taken as an [education]
    header and not stored: the map has no [education] entry.  [skills] is
    ["Python, Go, SQL"].  Scoring the map gives a Skills sub-score of 3 and an
    Education sub-score of 0. *)
Theorem scenario_parse_and_score :
  let parsed_data := Parser.parse_resume scenario_text in
  let r := Scorer.calculate_ats_score parsed_data scenario_text in
  parsed_data !! "personal_info" =
    Some [ "Email: john@example.com"; "Phone: 9876543210"; "John Doe";
           "john@example.com"; "9876543210" ]
  ∧ Parser.header_key "BTech Computer Science, XYZ University" = Some "education"
  ∧ parsed_data !! "education" = None
  ∧ parsed_data !! "skills" = Some [ "Python, Go, SQL" ]
  ∧ dom parsed_data = {[ "personal_info"; "skills" ]}
  ∧ Scorer.sub_score "Skills" r = Some 3%Z
  ∧ Scorer.sub_score "Education" r = Some 0%Z.
Proof. vm_compute. repeat split; reflexivity. Qed.

(** The scenario as the specification states it does not hold: the parsed
    map has no three-entry [personal_info], no [education] entry, and the
    Education sub-score is not 5. *)
Lemma scenario_as_stated_fails :
  let parsed_data := Parser.parse_resume scenario_text in
  let r := Scorer.calculate_ats_score parsed_data scenario_text in
  ¬ (parsed_data !! "personal_info" =
       Some [ "Email: john@example.com"; "Phone: 9876543210"; "John Doe" ]
     ∧ parsed_data !! "education" = Some [ "BTech Computer Science, XYZ University" ]
     ∧ parsed_data !! "skills" = Some [ "Python, Go, SQL" ]
     ∧ Scorer.sub_score "Skills" r = Some 3%Z
     ∧ Scorer.sub_score "Education" r = Some 5%Z).
Proof. vm_compute. intros (_ & H & _). discriminate H. Qed.

(** ** The pattern matcher *)

Section Matcher.

Lemma greedy_sound cls k : ∀ s lo hi prev m,
  Re.greedy cls k lo hi prev s = Some m →
  ∃ m1 m2 prev' s', m = m1 +:+ m2 ∧ all_chars cls m1 = true
    ∧ lo ≤ String.length m1 ∧ fits hi (String.length m1) ∧ k prev' s' = Some m2.
Proof.
  assert (Hstop : ∀ lo hi prev s m,
    match lo with O => k prev s | S _ => None end = Some m →
    ∃ m1 m2 prev' s', m = m1 +:+ m2 ∧ all_chars cls m1 = true
      ∧ lo ≤ String.length m1 ∧ fits hi (String.length m1) ∧ k prev' s' = Some m2).
  { intros [|lo] hi prev s m H; [|discriminate].
    exists EmptyString, m, prev, s. repeat split; auto.
    destruct hi; simpl; lia. }
  induction s as [|c s IH]; intros lo hi prev m H; simpl in H.
  - eapply Hstop, H.
  - destruct (cls c && Re.room hi) eqn:E; [|eapply Hstop, H].
    destruct (Re.greedy cls k (Nat.pred lo) (Re.less hi) (Some c) s) as [m0|] eqn:G;
      [|eapply Hstop, H].
    injection H as <-. apply andb_prop in E as [Ec Er].
    destruct (IH _ _ _ _ G) as (m1 & m2 & prev' & s' & -> & A & L & F & K).
    exists (String c m1), m2, prev', s'. simpl. rewrite Ec, A.
    repeat split; auto; [lia|].
    destruct hi as [[|h]|]; simpl in *; try discriminate; try lia; auto.
Qed.

Lemma match_here_sound : ∀ re prev s m,
  Re.match_here re prev s = Some m → pieces re m.
Proof.
  induction re as [|[cls lo hi|] re IH]; intros prev s m H; simpl in *.
  - congruence.
  - destruct (greedy_sound _ _ _ _ _ _ _ H) as (m1 & m2 & prev' & s' & -> & A & L & F & K).
    exists m1, m2. eauto 10.
  - destruct (Re.at_boundary prev s); [eauto | discriminate].
Qed.

Lemma findall_from_sound re : ∀ s prev skip m,
  In m (Re.findall_from re prev skip s) →
  ∃ prev' s', Re.match_here re prev' s' = Some m.
Proof.
  induction s as [|c s IH]; intros prev [|n] m H; simpl in H.
  - destruct (Re.match_here re prev EmptyString) eqn:E; simpl in H; [|tauto].
    destruct H as [<-|[]]. eauto.
  - tauto.
  - destruct (Re.match_here re prev (String c s)) eqn:E; simpl in H.
    + destruct H as [<-|H]; eauto.
    + eauto.
  - eauto.
Qed.

Lemma count_digits_app s t : count_digits (s +:+ t) = count_digits s + count_digits t.
Proof. induction s as [|c s IH]; simpl; [reflexivity | rewrite IH; lia]. Qed.

Lemma count_digits_all s : all_chars is_digit s = true → count_digits s = String.length s.
Proof.
  induction s as [|c s IH]; simpl; [reflexivity|].
  intros [-> H]%andb_prop. rewrite IH; auto.
Qed.

Lemma count_digits_none cls s :
  (∀ c, cls c = true → is_digit c = false) →
  all_chars cls s = true → count_digits s = 0.
Proof.
  intros Hcls. induction s as [|c s IH]; simpl; [reflexivity|].
  intros [Hc H]%andb_prop. rewrite (Hcls _ Hc), IH; auto.
Qed.

Lemma one_of_not_digit chars :
  all_chars (λ c, negb (is_digit c)) chars = true →
  ∀ c, Re.one_of chars c = true → is_digit c = false.
Proof.
  unfold Re.one_of. induction chars as [|d chars IH]; simpl; intros H c Hc.
  - discriminate.
  - apply andb_prop in H as [Hd H].
    destruct (Ascii.eqb c d) eqn:E.
    + apply Ascii.eqb_eq in E as ->. now apply negb_true_iff.
    + simpl in Hc. destruct chars; simpl in *; auto.
Qed.

Lemma separator_not_digit c : Parser.separator c = true → is_digit c = false.
Proof.
  destruct c as [[] [] [] [] [] [] [] []]; vm_compute; congruence.
Qed.

End Matcher.

(** ** The phone-number pattern *)

Lemma phone_pieces_digits m :
  pieces Parser.phone_pattern m → 4 ≤ count_digits m ≤ 21.
Proof.
  unfold Parser.phone_pattern, Re.opt, Re.between. simpl. intros H.
  repeat (destruct H as (? & ? & -> & ? & ? & ? & H)). subst.
  rewrite !count_digits_app.
  repeat match goal with
  | A : all_chars is_digit ?m = true |- _ =>
      rewrite (count_digits_all m A); clear A
  | A : all_chars (Re.one_of ?cs) ?m = true |- _ =>
      rewrite (count_digits_none _ m (one_of_not_digit cs eq_refl) A); clear A
  | A : all_chars Parser.separator ?m = true |- _ =>
      rewrite (count_digits_none _ m separator_not_digit A); clear A
  end.
  simpl in *. lia.
Qed.

(** C7, as the code has it.  Every string that [re.findall] returns for the
    phone-number pattern holds at least 4 decimal digits (one for each of the
    four digit groups) and at most 21. *)
Theorem phone_match_digits text m :
  In m (Re.findall Parser.phone_pattern text) → 4 ≤ count_digits m ≤ 21.
Proof.
  intros H. apply findall_from_sound in H as (prev & s & H).
  eapply phone_pieces_digits, match_here_sound, H.
Qed.

Lemma phone_match_digits_witness :
  In "1234" (Re.findall Parser.phone_pattern "room 1234")
  ∧ 4 ≤ count_digits "1234" ≤ 21.
Proof.
  split.
  - vm_compute. auto.
  - apply (phone_match_digits "room 1234"). vm_compute. auto.
Defined.

(** The pattern matches the four-digit string "1234": a match need not hold
    7 digits. *)
Lemma phone_match_below_seven :
  In "1234" (Re.findall Parser.phone_pattern "1234")
  ∧ ¬ (7 ≤ count_digits "1234").
Proof. split; [vm_compute; auto | vm_compute; lia]. Qed.

(** ** Header detection *)

Lemma keyword_loop_true keywords line :
  Parser.keyword_loop keywords line = true ↔
  mentions keywords line ∧ String.length line < 50.
Proof.
  unfold mentions. induction keywords as [|kw rest IH]; simpl.
  - split; [discriminate|]. intros [(kw & Hin & _) _]. inversion Hin.
  - destruct (contains kw (lower line)) eqn:C; simpl.
    + destruct (String.length line <? 50) eqn:L.
      * apply Nat.ltb_lt in L. split; [|reflexivity].
        intros _. split; [|exact L]. exists kw. split; [left|exact C].
      * rewrite IH. apply Nat.ltb_ge in L. split; intros [_ ?]; lia.
    + rewrite IH. split; intros [(kw' & Hin & C') L]; (split; [|exact L]).
      * exists kw'. split; [now right | exact C'].
      * exists kw'. split; [|exact C'].
        inversion Hin; subst; [congruence | assumption].
  Qed.

Lemma section_loop_first table line key :
  Parser.section_loop table line = Some key ↔
  String.length line < 50 ∧ first_match table key line.
Proof.
  unfold first_match. induction table as [|[k kws] table IH]; simpl.
  - split; [discriminate|]. intros (_ & before & ? & ? & E & _).
    destruct before; discriminate E.
  - destruct (Parser.keyword_loop kws line) eqn:K.
    + apply keyword_loop_true in K as [M L]. split.
      * intros [= <-]. split; [exact L|]. exists [], kws, table. auto.
      * intros (_ & [|[k' kws'] before] & kws0 & after & E & M0 & F);
          simpl in E; inversion E; subst; [reflexivity|].
        apply Forall_cons in F as [F _]. now destruct F.
    + assert (NM : String.length line < 50 → ¬ mentions kws line).
      { intros L M. assert (Parser.keyword_loop kws line = true) as K'
          by (apply keyword_loop_true; auto). congruence. }
      rewrite IH. split.
      * intros (L & before & kws0 & after & -> & M0 & F).
        split; [exact L|]. exists ((k, kws) :: before), kws0, after.
        repeat split; auto.
      * intros (L & [|[k' kws'] before] & kws0 & after & E & M0 & F);
          simpl in E; inversion E; subst; [now destruct (NM L)|].
        apply Forall_cons in F as [_ F]. split; [exact L|]. eauto 10.
Qed.

(** C3.  A non-blank line, as the parser sees it (stripped of surrounding
    white space), is handled as a header for the section key [key] (the
    pending content is flushed, [key] becomes the current section and the
    line is not stored) if and only if the line is shorter than 50 characters
    and [key] is the first key, in the order of declaration of
    [section_keywords], one of whose keywords occurs in the lower-cased
    line. *)
Theorem header_classification (st : Parser.scan) (raw key : string) :
  truthy_str (strip raw) = true →
  (Parser.scan_line st raw = Parser.Scan (Parser.flush st) (Some key) []
   ↔ String.length (strip raw) < 50
     ∧ first_match Parser.section_keywords key (strip raw)).
Proof.
  intros NB. rewrite <- section_loop_first. fold (Parser.header_key (strip raw)).
  unfold Parser.scan_line. rewrite NB. simpl.
  destruct (Parser.header_key (strip raw)) as [k|] eqn:H.
  - split; [intros [= ->]; reflexivity | intros [= ->]; reflexivity].
  - split; [|discriminate].
    destruct (Parser.current_section st); intros E; [|discriminate E].
    injection E as _ _ E. now destruct (Parser.current_content st).
Qed.

Lemma header_classification_witness :
  truthy_str (strip "  Work Experience ") = true
  ∧ (Parser.scan_line (Parser.Scan Parser.initial_parsed_data None []) "  Work Experience "
       = Parser.Scan (Parser.flush (Parser.Scan Parser.initial_parsed_data None []))
           (Some "experience") []
     ↔ String.length (strip "  Work Experience ") < 50
       ∧ first_match Parser.section_keywords "experience" (strip "  Work Experience ")).
Proof.
  split.
  - reflexivity.
  - apply (header_classification _ "  Work Experience " "experience"). reflexivity.
Defined.

(** ** The blocks of the scorer *)

Section Blocks.

Import Scorer.

Variable parsed_data : gmap string (list string).
Variable full_text : string.

Lemma len_nonneg {A} (l : list A) : (0 ≤ len l)%Z.
Proof. unfold len. lia. Qed.

Lemma count_skills_nonneg items : (0 ≤ count_skills items)%Z.
Proof.
  induction items as [|item items IH]; simpl; [lia|].
  pose proof (len_nonneg (split_on comma item)). lia.
Qed.

Local Ltac run_block :=
  intros a; unfold booked, said;
  repeat match goal with
  | |- context [if ?b then _ else _] => destruct b
  end;
  unfold book, say; cbn [fst snd acc_score acc_feedback acc_breakdown app];
  rewrite <- ?app_assoc, ?app_nil_r, ?Z.add_0_l; reflexivity.

Lemma contact_appends : appends (contact_block parsed_data) "Contact Information" 10.
Proof. unfold contact_block. run_block. Qed.

Lemma education_appends : appends (education_block parsed_data) "Education" 15.
Proof. unfold education_block. run_block. Qed.

Lemma experience_appends : appends (experience_block parsed_data) "Work Experience" 25.
Proof. unfold experience_block. run_block. Qed.

Lemma skills_appends : appends (skills_block parsed_data) "Skills" 15.
Proof. unfold skills_block. run_block. Qed.

Lemma projects_appends : appends (projects_block parsed_data) "Projects" 10.
Proof. unfold projects_block. run_block. Qed.

Lemma cert_appends : appends (cert_block parsed_data) "Certifications" 8.
Proof. unfold cert_block. run_block. Qed.

Lemma research_appends : appends (research_block parsed_data) "Research & Publications" 7.
Proof. unfold research_block. run_block. Qed.

Lemma formatting_appends :
  appends (formatting_block parsed_data full_text) "Formatting & Keywords" 10.
Proof. unfold formatting_block. run_block. Qed.

(** The report in terms of what each block books and says. *)
Lemma report_by_blocks :
  let r := calculate_ats_score parsed_data full_text in
  score r =
    (booked (contact_block parsed_data) + booked (education_block parsed_data)
     + booked (experience_block parsed_data) + booked (skills_block parsed_data)
     + booked (projects_block parsed_data) + booked (cert_block parsed_data)
     + booked (research_block parsed_data)
     + booked (formatting_block parsed_data full_text))%Z
  ∧ feedback r =
    said (contact_block parsed_data) ++ said (education_block parsed_data)
    ++ said (experience_block parsed_data) ++ said (skills_block parsed_data)
    ++ said (projects_block parsed_data) ++ said (cert_block parsed_data)
    ++ said (research_block parsed_data)
    ++ said (formatting_block parsed_data full_text)
  ∧ scoring_breakdown r =
    [ ("Contact Information", Entry (booked (contact_block parsed_data)) 10);
      ("Education", Entry (booked (education_block parsed_data)) 15);
      ("Work Experience", Entry (booked (experience_block parsed_data)) 25);
      ("Skills", Entry (booked (skills_block parsed_data)) 15);
      ("Projects", Entry (booked (projects_block parsed_data)) 10);
      ("Certifications", Entry (booked (cert_block parsed_data)) 8);
      ("Research & Publications", Entry (booked (research_block parsed_data)) 7);
      ("Formatting & Keywords",
       Entry (booked (formatting_block parsed_data full_text)) 10) ]
  ∧ max_score r = 100%Z.
Proof.
  unfold calculate_ats_score.
  pose proof (contact_appends (Acc 0 [] [])) as H.
  destruct (contact_block parsed_data _) as [s1 a1]; simpl in H; subst a1.
  match goal with |- context [education_block _ ?a] =>
    pose proof (education_appends a) as H end.
  destruct (education_block parsed_data _) as [s2 a2]; simpl in H; subst a2.
  match goal with |- context [experience_block _ ?a] =>
    pose proof (experience_appends a) as H end.
  destruct (experience_block parsed_data _) as [s3 a3]; simpl in H; subst a3.
  match goal with |- context [skills_block _ ?a] =>
    pose proof (skills_appends a) as H end.
  destruct (skills_block parsed_data _) as [s4 a4]; simpl in H; subst a4.
  match goal with |- context [projects_block _ ?a] =>
    pose proof (projects_appends a) as H end.
  destruct (projects_block parsed_data _) as [s5 a5]; simpl in H; subst a5.
  match goal with |- context [cert_block _ ?a] =>
    pose proof (cert_appends a) as H end.
  destruct (cert_block parsed_data _) as [s6 a6]; simpl in H; subst a6.
  match goal with |- context [research_block _ ?a] =>
    pose proof (research_appends a) as H end.
  destruct (research_block parsed_data _) as [s7 a7]; simpl in H; subst a7.
  match goal with |- context [formatting_block _ _ ?a] =>
    pose proof (formatting_appends a) as H end.
  destruct (formatting_block parsed_data full_text _) as [s8 a8]; simpl in H; subst a8.
  cbn [score feedback scoring_breakdown max_score acc_score acc_feedback acc_breakdown].
  rewrite <- !app_assoc. repeat split; reflexivity.
Qed.

Local Ltac eval_block :=
  unfold booked, said;
  repeat match goal with
  | |- context [if ?b then _ else _] => destruct b
  end;
  unfold book, say; cbn [fst snd acc_score acc_feedback acc_breakdown app].

Lemma contact_bounds : (0 ≤ booked (contact_block parsed_data) ≤ 10)%Z.
Proof. unfold contact_block. eval_block; lia. Qed.

Lemma education_bounds : (0 ≤ booked (education_block parsed_data) ≤ 15)%Z.
Proof.
  pose proof (len_nonneg (get parsed_data "education")).
  unfold education_block. eval_block; lia.
Qed.

Lemma experience_bounds : (0 ≤ booked (experience_block parsed_data) ≤ 25)%Z.
Proof.
  pose proof (len_nonneg (get parsed_data "experience")).
  unfold experience_block. eval_block; lia.
Qed.

Lemma skills_bounds : (0 ≤ booked (skills_block parsed_data) ≤ 15)%Z.
Proof.
  pose proof (count_skills_nonneg (get parsed_data "skills")).
  unfold skills_block. eval_block; lia.
Qed.

Lemma projects_bounds : (0 ≤ booked (projects_block parsed_data) ≤ 10)%Z.
Proof.
  pose proof (len_nonneg (get parsed_data "projects")).
  unfold projects_block. eval_block; lia.
Qed.

Lemma cert_bounds : (0 ≤ booked (cert_block parsed_data) ≤ 8)%Z.
Proof.
  pose proof (len_nonneg (get parsed_data "certifications")).
  unfold cert_block. eval_block; lia.
Qed.

Lemma research_bounds : (0 ≤ booked (research_block parsed_data) ≤ 7)%Z.
Proof.
  pose proof (len_nonneg (get parsed_data "research")).
  unfold research_block. eval_block; lia.
Qed.

Lemma formatting_bounds :
  (0 ≤ booked (formatting_block parsed_data full_text) ≤ 10)%Z.
Proof. unfold formatting_block. eval_block; lia. Qed.

End Blocks.

(** C4.  For every section map and text the total score lies between 0 and
    100, and the scoring breakdown has the eight entries Contact Information,
    Education, Work Experience, Skills, Projects, Certifications, Research &
    Publications and Formatting & Keywords, in that order, each with a score
    between 0 and its cap (10, 15, 25, 15, 10, 8, 7, 10); the caps sum to
    100, the value of [max_score]. *)
Theorem score_bounds (parsed_data : gmap string (list string)) (full_text : string) :
  let r := Scorer.calculate_ats_score parsed_data full_text in
  (0 ≤ Scorer.score r ≤ 100)%Z
  ∧ (∃ contact education experience skills projects cert research formatting,
       Scorer.scoring_breakdown r =
         [ ("Contact Information", Scorer.Entry contact 10);
           ("Education", Scorer.Entry education 15);
           ("Work Experience", Scorer.Entry experience 25);
           ("Skills", Scorer.Entry skills 15);
           ("Projects", Scorer.Entry projects 10);
           ("Certifications", Scorer.Entry cert 8);
           ("Research & Publications", Scorer.Entry research 7);
           ("Formatting & Keywords", Scorer.Entry formatting 10) ]
       ∧ (0 ≤ contact ≤ 10)%Z ∧ (0 ≤ education ≤ 15)%Z
       ∧ (0 ≤ experience ≤ 25)%Z ∧ (0 ≤ skills ≤ 15)%Z
       ∧ (0 ≤ projects ≤ 10)%Z ∧ (0 ≤ cert ≤ 8)%Z
       ∧ (0 ≤ research ≤ 7)%Z ∧ (0 ≤ formatting ≤ 10)%Z)
  ∧ total_max (Scorer.scoring_breakdown r) = 100%Z
  ∧ Scorer.max_score r = 100%Z.
Proof.
  intros r. destruct (report_by_blocks parsed_data full_text) as (Hs & _ & Hb & Hm).
  fold r in Hs, Hb, Hm.
  pose proof (contact_bounds parsed_data).
  pose proof (education_bounds parsed_data).
  pose proof (experience_bounds parsed_data).
  pose proof (skills_bounds parsed_data).
  pose proof (projects_bounds parsed_data).
  pose proof (cert_bounds parsed_data).
  pose proof (research_bounds parsed_data).
  pose proof (formatting_bounds parsed_data full_text).
  split; [rewrite Hs; lia|]. split.
  - do 8 eexists. split; [exact Hb|]. repeat split; lia.
  - rewrite Hb. split; [reflexivity | exact Hm].
Qed.

(** C10.  The total score of the report is the sum of the [score] fields of
    the eight entries of its scoring breakdown. *)
Theorem score_is_sum_of_breakdown
    (parsed_data : gmap string (list string)) (full_text : string) :
  let r := Scorer.calculate_ats_score parsed_data full_text in
  Scorer.score r = total_score (Scorer.scoring_breakdown r)
  ∧ length (Scorer.scoring_breakdown r) = 8.
Proof.
  intros r. destruct (report_by_blocks parsed_data full_text) as (Hs & _ & Hb & _).
  fold r in Hs, Hb. rewrite Hs, Hb. unfold total_score. simpl. split; [lia | reflexivity].
Qed.

(** ** The Work Experience sub-score *)

Lemma greedy_zero_some cls k :
  (∀ prev s, is_Some (k prev s)) →
  ∀ s hi prev, is_Some (Re.greedy cls k 0 hi prev s).
Proof.
  intros Hk. induction s as [|c s IH]; intros hi prev; simpl; [apply Hk|].
  destruct (cls c && Re.room hi); [|apply Hk].
  destruct (IH (Re.less hi) (Some c)) as [m ->]. eauto.
Qed.

(** The metric pattern matches at a position exactly when a digit stands
    there. *)
Lemma metric_here prev s :
  is_Some (Re.match_here Scorer.metric_pattern prev s) ↔
  match s with String c _ => is_digit c = true | EmptyString => False end.
Proof.
  unfold Scorer.metric_pattern, Re.plus, Re.opt. simpl.
  destruct s as [|c s]; simpl.
  - split; [intros [? [=]] | tauto].
  - destruct (is_digit c); simpl.
    + split; [reflexivity|]. intros _.
      match goal with |- context [Re.greedy is_digit ?k 0 ?h ?p s] =>
        assert (Hk : ∀ q t, is_Some (k q t))
          by (intros q t; apply greedy_zero_some; eauto);
        destruct (greedy_zero_some is_digit k Hk s h p) as [m ->] end.
      eauto.
    + split; [intros [? [=]] | discriminate].
Qed.

Lemma search_from_unfold re prev s :
  Re.search_from re prev s =
  match Re.match_here re prev s with
  | Some _ => true
  | None =>
      match s with
      | EmptyString => false
      | String c s' => Re.search_from re (Some c) s'
      end
  end.
Proof. destruct s; reflexivity. Qed.

Lemma search_metric s : Re.search Scorer.metric_pattern s = has_digit s.
Proof.
  unfold Re.search. generalize (@None ascii) as prev.
  induction s as [|c s IH]; intros prev; rewrite search_from_unfold;
    pose proof (metric_here prev) as M;
    match goal with |- context [Re.match_here ?re prev ?t] =>
      specialize (M t); destruct (Re.match_here re prev t) eqn:E end;
    cbn [has_digit].
  - destruct (proj1 M); eauto.
  - reflexivity.
  - rewrite (proj1 M) by eauto. reflexivity.
  - destruct (is_digit c) eqn:D; [|apply IH].
    destruct (proj2 M eq_refl) as [m [=]].
Qed.

Lemma existsb_search_metric items :
  existsb (Re.search Scorer.metric_pattern) items = existsb has_digit items.
Proof.
  induction items as [|item items IH]; simpl; [reflexivity|].
  now rewrite search_metric, IH.
Qed.

Lemma experience_booked (parsed_data : gmap string (list string)) :
  Scorer.booked (Scorer.experience_block parsed_data) =
  experience_formula (Scorer.get parsed_data "experience").
Proof.
  unfold Scorer.booked, Scorer.experience_block, experience_formula.
  rewrite existsb_search_metric.
  pose proof (len_nonneg (Scorer.get parsed_data "experience")).
  destruct (Scorer.get parsed_data "experience") as [|item items] eqn:E.
  - reflexivity.
  - cbn [truthy]. destruct (existsb has_digit (item :: items)); cbn; lia.
Qed.

Lemma experience_formula_mono items line :
  (experience_formula items ≤ experience_formula (items ++ [line]))%Z.
Proof.
  unfold experience_formula, Scorer.len.
  rewrite existsb_app, length_app. simpl.
  destruct (existsb has_digit items); simpl; [lia|].
  destruct (has_digit line); simpl; lia.
Qed.

(** C8.  The Work Experience sub-score is [min(25, count*5)], plus 5 when
    some experience line holds a digit (the pattern, a run of digits with an
    optional [%] or [+] after it, is found exactly in the lines that hold a
    digit), capped at 25; and appending one more line to the experience
    section, everything else unchanged, never decreases it. *)
Theorem experience_score_monotone
    (parsed_data : gmap string (list string)) (full_text line : string) :
  let items := Scorer.get parsed_data "experience" in
  let longer := <["experience" := items ++ [line]]> parsed_data in
  Scorer.sub_score "Work Experience" (Scorer.calculate_ats_score parsed_data full_text)
    = Some (experience_formula items)
  ∧ Scorer.sub_score "Work Experience" (Scorer.calculate_ats_score longer full_text)
    = Some (experience_formula (items ++ [line]))
  ∧ (experience_formula items ≤ experience_formula (items ++ [line]))%Z
  ∧ (∀ item, Re.search Scorer.metric_pattern item = has_digit item).
Proof.
  intros items longer.
  assert (Hsub : ∀ pd, Scorer.sub_score "Work Experience"
                         (Scorer.calculate_ats_score pd full_text)
                       = Some (experience_formula (Scorer.get pd "experience"))).
  { intros pd. destruct (report_by_blocks pd full_text) as (_ & _ & Hb & _).
    unfold Scorer.sub_score. rewrite Hb, <- experience_booked. reflexivity. }
  repeat split.
  - apply Hsub.
  - rewrite Hsub. unfold longer, Scorer.get at 1. now rewrite lookup_insert_eq.
  - apply experience_formula_mono.
  - apply search_metric.
Qed.

(** ** The feedback list *)

Section Feedback.

Import Scorer.

Variable parsed_data : gmap string (list string).
Variable full_text : string.

Local Ltac eval_said :=
  unfold said;
  repeat match goal with
  | |- context [if ?b then _ else _] => destruct b
  end;
  reflexivity.

Lemma contact_said :
  said (contact_block parsed_data) =
  [ if any_mentions "email" (get parsed_data "personal_info")
    then "✓ Email address found" else "✗ Missing email address";
    if any_mentions "phone" (get parsed_data "personal_info")
    then "✓ Phone number found" else "✗ Missing phone number" ].
Proof. unfold contact_block. eval_said. Qed.

Lemma education_said :
  said (education_block parsed_data) =
  [ if truthy (get parsed_data "education")
    then "✓ Education section found with "
         +:+ str_of_nat (length (get parsed_data "education")) +:+ " entries"
    else "✗ No education section found" ].
Proof. unfold education_block. eval_said. Qed.

Lemma experience_said :
  said (experience_block parsed_data) =
  if truthy (get parsed_data "experience")
  then ("✓ Work experience section found with "
        +:+ str_of_nat (length (get parsed_data "experience")) +:+ " entries")
       :: (if existsb (Re.search metric_pattern) (get parsed_data "experience")
           then ["✓ Quantifiable achievements found (numbers/metrics)"] else [])
  else ["✗ No work experience section found"].
Proof. unfold experience_block. eval_said. Qed.

Lemma skills_said :
  said (skills_block parsed_data) =
  [ if truthy (get parsed_data "skills")
    then "✓ Skills section found with approximately "
         +:+ NilZero.string_of_int (Z.to_int (count_skills (get parsed_data "skills")))
         +:+ " skills"
    else "✗ No skills section found" ].
Proof. unfold skills_block. eval_said. Qed.

Lemma projects_said :
  said (projects_block parsed_data) =
  [ if truthy (get parsed_data "projects")
    then "✓ Projects section found with "
         +:+ str_of_nat (length (get parsed_data "projects")) +:+ " projects"
    else "⚠ No projects section found" ].
Proof. unfold projects_block. eval_said. Qed.

Lemma cert_said :
  said (cert_block parsed_data) =
  [ if truthy (get parsed_data "certifications")
    then "✓ Certifications found: "
         +:+ str_of_nat (length (get parsed_data "certifications")) +:+ " certificates"
    else "⚠ No certifications listed" ].
Proof. unfold cert_block. eval_said. Qed.

Lemma research_said :
  said (research_block parsed_data) =
  if truthy (get parsed_data "research")
  then [ "✓ Research/Publications found: "
         +:+ str_of_nat (length (get parsed_data "research")) +:+ " papers" ]
  else [].
Proof. unfold research_block. eval_said. Qed.

Lemma formatting_said :
  said (formatting_block parsed_data full_text) =
  (if (section_count parsed_data >=? 4)%Z
   then ["✓ Well-structured with multiple sections"] else [])
  ++ (if (found_verbs full_text >=? 5)%Z
      then [ "✓ Strong action verbs used ("
             +:+ NilZero.string_of_int (Z.to_int (found_verbs full_text)) +:+ " found)" ]
      else if (found_verbs full_text >=? 2)%Z
      then [ "⚠ Some action verbs used ("
             +:+ NilZero.string_of_int (Z.to_int (found_verbs full_text)) +:+ " found)" ]
      else []).
Proof. unfold formatting_block. eval_said. Qed.

End Feedback.

(** C6, as the code has it.  The feedback list is the concatenation, in the
    order of the scoring table, of the lines of the eight criteria.  Contact
    Information gives two lines, one per signal, and Education, Skills,
    Projects and Certifications one line each, a check-mark line when the
    signal is satisfied and a cross or warning line when it is not; Work
    Experience gives a cross line when the section is empty and otherwise a
    check-mark line, followed by a second one when a metric is found.
    Research & Publications gives a check-mark line when the section is not
    empty and no line otherwise; Formatting & Keywords gives one line per
    satisfied signal and no line for an unsatisfied one. *)
Theorem feedback_by_criterion
    (parsed_data : gmap string (list string)) (full_text : string) :
  let said_by := Scorer.said in
  let items := Scorer.get parsed_data in
  Scorer.feedback (Scorer.calculate_ats_score parsed_data full_text) =
    said_by (Scorer.contact_block parsed_data)
    ++ said_by (Scorer.education_block parsed_data)
    ++ said_by (Scorer.experience_block parsed_data)
    ++ said_by (Scorer.skills_block parsed_data)
    ++ said_by (Scorer.projects_block parsed_data)
    ++ said_by (Scorer.cert_block parsed_data)
    ++ said_by (Scorer.research_block parsed_data)
    ++ said_by (Scorer.formatting_block parsed_data full_text)
  ∧ said_by (Scorer.contact_block parsed_data) =
      [ if Scorer.any_mentions "email" (items "personal_info")
        then "✓ Email address found" else "✗ Missing email address";
        if Scorer.any_mentions "phone" (items "personal_info")
        then "✓ Phone number found" else "✗ Missing phone number" ]
  ∧ said_by (Scorer.education_block parsed_data) =
      [ if truthy (items "education")
        then "✓ Education section found with "
             +:+ str_of_nat (length (items "education")) +:+ " entries"
        else "✗ No education section found" ]
  ∧ said_by (Scorer.experience_block parsed_data) =
      (if truthy (items "experience")
       then ("✓ Work experience section found with "
             +:+ str_of_nat (length (items "experience")) +:+ " entries")
            :: (if existsb (Re.search Scorer.metric_pattern) (items "experience")
                then ["✓ Quantifiable achievements found (numbers/metrics)"] else [])
       else ["✗ No work experience section found"])
  ∧ said_by (Scorer.skills_block parsed_data) =
      [ if truthy (items "skills")
        then "✓ Skills section found with approximately "
             +:+ NilZero.string_of_int (Z.to_int (Scorer.count_skills (items "skills")))
             +:+ " skills"
        else "✗ No skills section found" ]
  ∧ said_by (Scorer.projects_block parsed_data) =
      [ if truthy (items "projects")
        then "✓ Projects section found with "
             +:+ str_of_nat (length (items "projects")) +:+ " projects"
        else "⚠ No projects section found" ]
  ∧ said_by (Scorer.cert_block parsed_data) =
      [ if truthy (items "certifications")
        then "✓ Certifications found: "
             +:+ str_of_nat (length (items "certifications")) +:+ " certificates"
        else "⚠ No certifications listed" ]
  ∧ said_by (Scorer.research_block parsed_data) =
      (if truthy (items "research")
       then [ "✓ Research/Publications found: "
              +:+ str_of_nat (length (items "research")) +:+ " papers" ]
       else [])
  ∧ said_by (Scorer.formatting_block parsed_data full_text) =
      (if (Scorer.section_count parsed_data >=? 4)%Z
       then ["✓ Well-structured with multiple sections"] else [])
      ++ (if (Scorer.found_verbs full_text >=? 5)%Z
          then [ "✓ Strong action verbs used ("
                 +:+ NilZero.string_of_int (Z.to_int (Scorer.found_verbs full_text))
                 +:+ " found)" ]
          else if (Scorer.found_verbs full_text >=? 2)%Z
          then [ "⚠ Some action verbs used ("
                 +:+ NilZero.string_of_int (Z.to_int (Scorer.found_verbs full_text))
                 +:+ " found)" ]
          else []).
Proof.
  intros said_by items. subst said_by items.
  destruct (report_by_blocks parsed_data full_text) as (_ & Hf & _).
  split; [exact Hf|].
  repeat split;
    auto using contact_said, education_said, experience_said, skills_said,
      projects_said, cert_said, research_said, formatting_said.
Qed.

(** On the empty section map and the empty text the Research & Publications
    block and the Formatting & Keywords block append no line, and the
    feedback list has 7 lines: fewer than one per criterion. *)
Lemma feedback_criteria_without_line :
  ¬ (1 ≤ length (Scorer.said (Scorer.research_block ∅)))
  ∧ ¬ (1 ≤ length (Scorer.said (Scorer.formatting_block ∅ EmptyString)))
  ∧ ¬ (8 ≤ length (Scorer.feedback (Scorer.calculate_ats_score ∅ EmptyString))).
Proof. vm_compute. repeat split; lia. Qed.

(** ** Missing sections and missing arguments *)

Lemma get_absent (parsed_data : gmap string (list string)) key :
  parsed_data !! key = None → Scorer.get parsed_data key = [].
Proof. unfold Scorer.get. now intros ->. Qed.

(** C5, as the code has it.  Given a section map and a text the scorer
    always returns a report.  A missing [personal_info] gives a Contact
    Information sub-score of 0 and the two cross lines; a missing
    [education], [experience], [skills], [projects] or [certifications]
    section gives a sub-score of 0 and the cross or warning line of its
    criterion; a missing [research] section gives a sub-score of 0 and no
    feedback line.  The scorer raises, with Python's [AttributeError],
    exactly when the section map or the text is [None]. *)
Theorem scorer_missing_sections
    (parsed_data : gmap string (list string)) (full_text : string) :
  let r := Scorer.calculate_ats_score parsed_data full_text in
  Scorer.calculate_ats_score_dyn (Some parsed_data) (Some full_text) = Scorer.Returned r
  ∧ (parsed_data !! "personal_info" = None →
       Scorer.sub_score "Contact Information" r = Some 0%Z
       ∧ In "✗ Missing email address" (Scorer.feedback r)
       ∧ In "✗ Missing phone number" (Scorer.feedback r))
  ∧ (parsed_data !! "education" = None →
       Scorer.sub_score "Education" r = Some 0%Z
       ∧ In "✗ No education section found" (Scorer.feedback r))
  ∧ (parsed_data !! "experience" = None →
       Scorer.sub_score "Work Experience" r = Some 0%Z
       ∧ In "✗ No work experience section found" (Scorer.feedback r))
  ∧ (parsed_data !! "skills" = None →
       Scorer.sub_score "Skills" r = Some 0%Z
       ∧ In "✗ No skills section found" (Scorer.feedback r))
  ∧ (parsed_data !! "projects" = None →
       Scorer.sub_score "Projects" r = Some 0%Z
       ∧ In "⚠ No projects section found" (Scorer.feedback r))
  ∧ (parsed_data !! "certifications" = None →
       Scorer.sub_score "Certifications" r = Some 0%Z
       ∧ In "⚠ No certifications listed" (Scorer.feedback r))
  ∧ (parsed_data !! "research" = None →
       Scorer.sub_score "Research & Publications" r = Some 0%Z
       ∧ Scorer.said (Scorer.research_block parsed_data) = [])
  ∧ (∀ section_map text,
       (∃ e, Scorer.calculate_ats_score_dyn section_map text = Scorer.Raised e)
       ↔ section_map = None ∨ text = None)
  ∧ (∀ section_map text e,
       Scorer.calculate_ats_score_dyn section_map text = Scorer.Raised e →
       e = Scorer.AttributeError).
Proof.
  intros r.
  destruct (report_by_blocks parsed_data full_text) as (_ & Hf & Hb & _).
  fold r in Hf, Hb. unfold Scorer.sub_score. rewrite Hf, Hb. cbn [Scorer.lookup_entry String.eqb Ascii.eqb Bool.eqb fmap option_fmap option_map Scorer.entry_score].
  split; [reflexivity|].
  repeat split.
  - unfold Scorer.booked, Scorer.contact_block. now rewrite (get_absent _ _ H).
  - rewrite contact_said, (get_absent _ _ H). simpl. auto.
  - rewrite contact_said, (get_absent _ _ H). simpl. auto.
  - unfold Scorer.booked, Scorer.education_block. now rewrite (get_absent _ _ H).
  - rewrite education_said, (get_absent _ _ H). rewrite !in_app_iff. simpl. auto.
  - unfold Scorer.booked, Scorer.experience_block. now rewrite (get_absent _ _ H).
  - rewrite experience_said, (get_absent _ _ H). rewrite !in_app_iff. simpl. auto.
  - unfold Scorer.booked, Scorer.skills_block. now rewrite (get_absent _ _ H).
  - rewrite skills_said, (get_absent _ _ H). rewrite !in_app_iff. simpl. auto 6.
  - unfold Scorer.booked, Scorer.projects_block. now rewrite (get_absent _ _ H).
  - rewrite projects_said, (get_absent _ _ H). rewrite !in_app_iff. simpl. auto 7.
  - unfold Scorer.booked, Scorer.cert_block. now rewrite (get_absent _ _ H).
  - rewrite cert_said, (get_absent _ _ H). rewrite !in_app_iff. simpl. auto 8.
  - unfold Scorer.booked, Scorer.research_block. now rewrite (get_absent _ _ H).
  - rewrite research_said, (get_absent _ _ H). reflexivity.
  - intros [e He]. destruct section_map, text; simpl in He; try discriminate; auto.
  - intros [-> | ->]; [|destruct section_map]; simpl; eauto.
  - destruct e. reflexivity.
Qed.

Lemma scorer_missing_sections_witness :
  let absent key := (∅ : gmap string (list string)) !! key = None in
  let r := Scorer.calculate_ats_score ∅ EmptyString in
  (absent "personal_info" ∧ absent "education" ∧ absent "experience" ∧ absent "skills"
   ∧ absent "projects" ∧ absent "certifications" ∧ absent "research")
  ∧ (Scorer.sub_score "Contact Information" r = Some 0%Z
     ∧ In "✗ Missing email address" (Scorer.feedback r)
     ∧ In "✗ Missing phone number" (Scorer.feedback r))
  ∧ (Scorer.sub_score "Education" r = Some 0%Z
     ∧ In "✗ No education section found" (Scorer.feedback r))
  ∧ (Scorer.sub_score "Work Experience" r = Some 0%Z
     ∧ In "✗ No work experience section found" (Scorer.feedback r))
  ∧ (Scorer.sub_score "Skills" r = Some 0%Z
     ∧ In "✗ No skills section found" (Scorer.feedback r))
  ∧ (Scorer.sub_score "Projects" r = Some 0%Z
     ∧ In "⚠ No projects section found" (Scorer.feedback r))
  ∧ (Scorer.sub_score "Certifications" r = Some 0%Z
     ∧ In "⚠ No certifications listed" (Scorer.feedback r))
  ∧ (Scorer.sub_score "Research & Publications" r = Some 0%Z
     ∧ Scorer.said (Scorer.research_block ∅) = []).
Proof.
  intros absent r.
  destruct (scorer_missing_sections ∅ EmptyString)
    as (_ & H1 & H2 & H3 & H4 & H5 & H6 & H7 & _).
  split; [repeat split; reflexivity|].
  split; [apply H1; reflexivity|].
  split; [apply H2; reflexivity|].
  split; [apply H3; reflexivity|].
  split; [apply H4; reflexivity|].
  split; [apply H5; reflexivity|].
  split; [apply H6; reflexivity|].
  apply H7; reflexivity.
Defined.

(** With the [research] section missing, the feedback list holds no line
    about research, negative or otherwise; and a [None] argument raises
    [AttributeError], the only exception of the scorer. *)
Lemma absent_research_has_no_line :
  (∅ : gmap string (list string)) !! "research" = None
  ∧ Scorer.feedback (Scorer.calculate_ats_score ∅ EmptyString) =
      [ "✗ Missing email address"; "✗ Missing phone number";
        "✗ No education section found"; "✗ No work experience section found";
        "✗ No skills section found"; "⚠ No projects section found";
        "⚠ No certifications listed" ]
  ∧ Scorer.calculate_ats_score_dyn None (Some EmptyString) = Scorer.Raised Scorer.AttributeError.
Proof. vm_compute. auto. Qed.

(** ** The upload handler *)

Section Upload.

Import Handler.

Variable extract_text_from_pdf : string → string + string.
Variable extract_text_from_docx : string → string + string.
Variable decode_utf8 : string → string.

(** C9.  When an authenticated request uploads a file whose name, in lower
    case, ends with none of [.pdf], [.docx] and [.txt], the handler answers
    with status 400 and the unsupported-format message, and it has called
    neither an extractor, nor the parser, nor the scorer. *)
Theorem unsupported_format_rejected (req : request) (file : upload) :
  authenticated req = true →
  file_part req = Some file →
  filename file ≠ EmptyString →
  endswith ".pdf" (lower (filename file)) = false →
  endswith ".docx" (lower (filename file)) = false →
  endswith ".txt" (lower (filename file)) = false →
  upload_resume_for_ats extract_text_from_pdf extract_text_from_docx decode_utf8 req
  = ([], Failure 400 "Unsupported file format. Please upload PDF, DOCX, or TXT").
Proof.
  intros Ha Hf Hn Hp Hd Ht. unfold upload_resume_for_ats, extract.
  rewrite Ha, Hf, Hp, Hd, Ht. simpl.
  destruct (String.eqb_spec (filename file) EmptyString); [contradiction | reflexivity].
Qed.

End Upload.

Lemma unsupported_format_rejected_witness :
  let file := Handler.Upload "Grades.XLSX" "PK" in
  let req := Handler.Request true (Some file) in
  (Handler.authenticated req = true
   ∧ Handler.file_part req = Some file
   ∧ Handler.filename file ≠ EmptyString
   ∧ endswith ".pdf" (lower (Handler.filename file)) = false
   ∧ endswith ".docx" (lower (Handler.filename file)) = false
   ∧ endswith ".txt" (lower (Handler.filename file)) = false)
  ∧ Handler.upload_resume_for_ats (λ _, inr "not a PDF") (λ _, inr "not a DOCX") (λ s, s) req
    = ([], Handler.Failure 400 "Unsupported file format. Please upload PDF, DOCX, or TXT").
Proof.
  intros file req. split.
  - repeat split; try reflexivity. discriminate.
  - apply (unsupported_format_rejected _ _ _ req file); try reflexivity. discriminate.
Defined.

(** ** Line accounting of the parser *)

Lemma concat_perm {A} (l l' : list (list A)) : l ≡ₚ l' → concat l ≡ₚ concat l'.
Proof.
  induction 1 as [|x l l' _ IH|x y l|l l' l'' _ IH1 _ IH2]; simpl.
  - reflexivity.
  - now rewrite IH.
  - rewrite !app_assoc. f_equiv. apply Permutation_app_comm.
  - now rewrite IH1.
Qed.

Lemma stored_lines_insert (m : gmap string (list string)) key old new :
  m !! key = Some old →
  stored_lines (<[key := new]> m) ++ old ≡ₚ stored_lines m ++ new.
Proof.
  intros H. unfold stored_lines.
  rewrite <- (insert_delete_eq m).
  rewrite (concat_perm _ _ (fmap_Permutation snd _ _
             (map_to_list_insert (delete key m) key new (lookup_delete_eq m key)))).
  rewrite <- (concat_perm _ _ (fmap_Permutation snd _ _ (map_to_list_delete m key old H))).
  simpl. rewrite <- !app_assoc. rewrite (Permutation_app_comm new).
  rewrite !app_assoc. f_equiv. apply Permutation_app_comm.
Qed.

Lemma stored_lines_extend (m : gmap string (list string)) key xs :
  is_Some (m !! key) →
  stored_lines (Parser.extend key xs m) ≡ₚ stored_lines m ++ xs.
Proof.
  intros [old H]. unfold Parser.extend. rewrite (alter_alt_Some _ _ _ _ H).
  apply Permutation_app_inv_r with (l := old).
  rewrite (stored_lines_insert m key old (old ++ xs) H), <- app_assoc.
  apply Permutation_app_head, Permutation_app_comm.
Qed.

Lemma stored_lines_filter (m : gmap string (list string)) :
  stored_lines (filter (λ kv, kv.2 ≠ []) m) ≡ₚ stored_lines m.
Proof.
  induction m as [|key x m Hkey IH] using map_ind.
  - now rewrite map_filter_empty.
  - unfold stored_lines in *.
    rewrite (concat_perm _ _ (fmap_Permutation snd _ _ (map_to_list_insert m key x Hkey))).
    simpl. destruct x as [|line x].
    + rewrite map_filter_insert_False by (simpl; congruence).
      rewrite delete_id by exact Hkey. exact IH.
    + rewrite map_filter_insert_True by (simpl; congruence).
      rewrite (concat_perm _ _ (fmap_Permutation snd _ _
                 (map_to_list_insert _ key (line :: x)
                    (map_lookup_filter_None_2 _ _ _ (or_introl Hkey))))).
      simpl. now rewrite IH.
Qed.

Lemma section_loop_key table line key :
  Parser.section_loop table line = Some key → key ∈ table.*1.
Proof.
  induction table as [|[k kws] table IH]; simpl; [discriminate|].
  destruct (Parser.keyword_loop kws line).
  - intros [= ->]. left.
  - intros H. right. auto.
Qed.

Lemma header_key_known line key :
  Parser.header_key line = Some key → key ∈ Parser.section_keys.
Proof.
  intros H%section_loop_key. simpl in H.
  repeat (apply elem_of_cons in H as [-> | H]); try (repeat constructor; fail).
  inversion H.
Qed.

(** A section key is never the empty string: [current_section] is true, in
    Python's sense, exactly when it is set. *)
Lemma header_key_nonempty line key :
  Parser.header_key line = Some key → truthy_str key = true.
Proof.
  intros H%header_key_known. unfold Parser.section_keys in H.
  repeat (apply elem_of_cons in H as [-> | H]); try reflexivity.
  inversion H.
Qed.

Lemma initial_keys_bound key :
  key ∈ Parser.section_keys → is_Some (Parser.initial_parsed_data !! key).
Proof.
  intros H. unfold Parser.section_keys in H.
  repeat (apply elem_of_cons in H as [-> | H]); try (vm_compute; eauto; fail).
  inversion H.
Qed.

Lemma extend_keys_bound (m : gmap string (list string)) key xs :
  (∀ k, k ∈ Parser.section_keys → is_Some (m !! k)) →
  ∀ k, k ∈ Parser.section_keys → is_Some (Parser.extend key xs m !! k).
Proof. intros H k Hk. unfold Parser.extend. apply lookup_alter_is_Some, H, Hk. Qed.

Lemma personal_info_key : "personal_info" ∈ Parser.section_keys.
Proof. left. Qed.

Lemma flush_inv st taken :
  scan_inv st taken →
  stored_lines (Parser.flush st) ≡ₚ taken
  ∧ (∀ key, key ∈ Parser.section_keys → is_Some (Parser.flush st !! key)).
Proof.
  intros (P & K & C). unfold Parser.flush.
  destruct (Parser.current_section st) as [key|].
  - destruct (Parser.current_content st) as [|line content] eqn:E; simpl.
    + rewrite app_nil_r in P. auto.
    + split; [|now apply extend_keys_bound].
      rewrite stored_lines_extend by auto. exact P.
  - rewrite C, app_nil_r in P. auto.
Qed.

Lemma scan_line_inv st taken raw :
  scan_inv st taken →
  scan_inv (Parser.scan_line st raw)
    (taken ++ List.filter (λ line, negb (is_header line)) (seen [raw])).
Proof.
  intros I. unfold Parser.scan_line, seen. simpl.
  destruct (truthy_str (strip raw)); simpl; [|now rewrite app_nil_r].
  unfold is_header. destruct (Parser.header_key (strip raw)) as [key|] eqn:H; simpl.
  - rewrite app_nil_r. destruct (flush_inv _ _ I) as [P K].
    split; [|split]; simpl; auto.
    + now rewrite app_nil_r.
    + eapply header_key_known, H.
  - destruct I as (P & K & C).
    destruct (Parser.current_section st) as [key|] eqn:S; (split; [|split]); simpl; auto.
    + now rewrite app_assoc, P.
    + rewrite C, app_nil_r in *.
      rewrite stored_lines_extend by (apply K, personal_info_key). now rewrite P.
    + now apply extend_keys_bound.
Qed.

Lemma seen_cons raw raws : seen (raw :: raws) = seen [raw] ++ seen raws.
Proof. unfold seen. simpl. now destruct (truthy_str (strip raw)). Qed.

Lemma scan_fold_inv raws : ∀ st taken,
  scan_inv st taken →
  scan_inv (foldl Parser.scan_line st raws)
    (taken ++ List.filter (λ line, negb (is_header line)) (seen raws)).
Proof.
  induction raws as [|raw raws IH]; intros st taken I; simpl.
  - now rewrite app_nil_r.
  - rewrite seen_cons, List.filter_app, app_assoc.
    apply IH, scan_line_inv, I.
Qed.

Lemma parse_lines_stored raws :
  stored_lines (Parser.parse_lines raws) ≡ₚ
  Parser.contact_lines raws ++ List.filter (λ line, negb (is_header line)) (seen raws).
Proof.
  unfold Parser.parse_lines, Parser.scan_lines.
  rewrite stored_lines_filter.
  apply flush_inv, scan_fold_inv. split; [|split]; simpl; auto.
  - rewrite app_nil_r, stored_lines_extend
      by (apply initial_keys_bound, personal_info_key).
    reflexivity.
  - apply extend_keys_bound, initial_keys_bound.
Qed.

Lemma filter_split_length {A} (f : A → bool) l :
  length (List.filter f l) + length (List.filter (λ x, negb (f x)) l) = length l.
Proof. induction l as [|x l IH]; simpl; [reflexivity|]. destruct (f x); simpl; lia. Qed.

(** C2, as the code has it.  The lines stored in the section map are, up to
    their order, the contact lines the parser writes itself (an "Email: "
    line when the text holds an e-mail address and a "Phone: " line when it
    holds a phone number) followed by the non-blank input lines that are not
    headers: no such line is lost or stored twice, and no header line is
    stored.  So the number of stored lines plus the number of header lines is
    the number of non-blank input lines plus the number of contact lines,
    which is at most 2. *)
Theorem parser_line_accounting (text : string) :
  let contact := Parser.contact_lines (split_on newline text) in
  stored_lines (Parser.parse_resume text) ≡ₚ contact ++ content_lines text
  ∧ length (stored_lines (Parser.parse_resume text)) + length (header_lines text)
    = length (nonblank_lines text) + length contact
  ∧ length contact ≤ 2.
Proof.
  intros contact.
  assert (P : stored_lines (Parser.parse_resume text) ≡ₚ contact ++ content_lines text)
    by apply parse_lines_stored.
  split; [exact P|]. split.
  - rewrite P, length_app. unfold content_lines, header_lines.
    pose proof (filter_split_length is_header (nonblank_lines text)). lia.
  - unfold contact, Parser.contact_lines. rewrite length_app.
    destruct (Re.findall Parser.email_pattern _), (Re.findall Parser.phone_pattern _);
      simpl; lia.
Qed.

(** The text "a@b.cd" has one non-blank line and no header, and its section
    map holds two lines: the line itself and "Email: a@b.cd". *)
Lemma parser_adds_contact_line :
  stored_lines (Parser.parse_resume "a@b.cd") = ["Email: a@b.cd"; "a@b.cd"]
  ∧ nonblank_lines "a@b.cd" = ["a@b.cd"]
  ∧ length (stored_lines (Parser.parse_resume "a@b.cd")) + length (header_lines "a@b.cd")
    ≠ length (nonblank_lines "a@b.cd").
Proof. vm_compute. repeat split; congruence. Qed.

(** ** The sections of the parsed map *)

Lemma get_extend (m : gmap string (list string)) current xs key :
  is_Some (m !! current) →
  Scorer.get (Parser.extend current xs m) key =
  Scorer.get m key ++ (if String.eqb current key then xs else []).
Proof.
  intros [old H]. unfold Scorer.get, Parser.extend.
  destruct (String.eqb_spec current key) as [<-|N].
  - now rewrite lookup_alter_eq, H.
  - rewrite lookup_alter_ne by exact N. now rewrite app_nil_r.
Qed.

Lemma get_initial key : Scorer.get Parser.initial_parsed_data key = [].
Proof.
  unfold Scorer.get, Parser.initial_parsed_data.
  destruct (list_to_map _ !! key) as [v|] eqn:E; [|reflexivity].
  apply elem_of_list_to_map_2, list_elem_of_fmap in E as (k & [= _ ->] & _).
  reflexivity.
Qed.

Lemma get_filter (m : gmap string (list string)) key :
  Scorer.get (filter (λ kv, kv.2 ≠ []) m) key = Scorer.get m key.
Proof.
  unfold Scorer.get. destruct (m !! key) as [[|line v]|] eqn:E; simpl.
  - rewrite map_lookup_filter_None_2; [reflexivity|].
    right. intros x Hx. rewrite E in Hx. injection Hx as <-. simpl. congruence.
  - erewrite map_lookup_filter_Some_2; [reflexivity | exact E | simpl; congruence].
  - rewrite map_lookup_filter_None_2; auto.
Qed.

Lemma flush_held st taken key :
  scan_inv st taken → Scorer.get (Parser.flush st) key = held st key.
Proof.
  intros (_ & K & C). unfold Parser.flush, held.
  destruct (Parser.current_section st) as [current|]; [|now rewrite app_nil_r].
  destruct (Parser.current_content st) as [|line content]; simpl.
  - now destruct (String.eqb current key); rewrite app_nil_r.
  - now rewrite get_extend by auto.
Qed.

Lemma fold_held raws : ∀ st taken key,
  scan_inv st taken →
  held (foldl Parser.scan_line st raws) key =
  held st key ++ owned_by key (Parser.current_section st) (seen raws).
Proof.
  induction raws as [|raw raws IH]; intros st taken key I; simpl.
  - now rewrite app_nil_r.
  - rewrite (IH _ _ key (scan_line_inv st taken raw I)).
    unfold Parser.scan_line, seen. simpl.
    destruct (truthy_str (strip raw)); simpl; [|reflexivity].
    fold (seen raws).
    destruct (Parser.header_key (strip raw)) as [section_key|] eqn:H; simpl.
    + unfold held at 1. simpl.
      destruct (String.eqb section_key key); rewrite app_nil_r;
        now rewrite (flush_held st taken key I).
    + destruct I as (_ & K & C). unfold held.
      destruct (Parser.current_section st) as [current|] eqn:S; simpl.
      * destruct (String.eqb current key); simpl;
          now rewrite <- ?app_assoc.
      * rewrite !app_nil_r.
        rewrite get_extend by (apply K, personal_info_key).
        now rewrite <- app_assoc.
Qed.

Lemma parse_resume_get (text key : string) :
  Scorer.get (Parser.parse_resume text) key =
  (if String.eqb "personal_info" key
   then Parser.contact_lines (split_on newline text) else [])
  ++ owned_by key None (nonblank_lines text).
Proof.
  unfold Parser.parse_resume, Parser.parse_lines, Parser.scan_lines, nonblank_lines.
  set (raws := split_on newline text).
  set (st0 := Parser.Scan _ None []).
  assert (I0 : scan_inv st0 (Parser.contact_lines raws)).
  { split; [|split]; simpl; auto.
    - rewrite app_nil_r, stored_lines_extend
        by (apply initial_keys_bound, personal_info_key).
      reflexivity.
    - apply extend_keys_bound, initial_keys_bound. }
  rewrite get_filter.
  rewrite (flush_held _ _ key (scan_fold_inv raws st0 _ I0)).
  rewrite (fold_held raws st0 _ key I0).
  f_equal. unfold held, st0. simpl.
  rewrite get_extend by (apply initial_keys_bound, personal_info_key).
  now rewrite get_initial, app_nil_r.
Qed.

(** X1.  The list the parsed map holds for a section key (the empty list
    when the key is absent) is, in the order of the input: for
    [personal_info], the contact lines followed by the content lines that
    come before the first header or under a [personal_info] header; for any
    other key, the content lines under the headers of that key, the lines of
    repeated headers of one key accumulating. *)
Theorem parse_resume_sections (text key : string) :
  Scorer.get (Parser.parse_resume text) key =
  (if String.eqb "personal_info" key
   then Parser.contact_lines (split_on newline text) else [])
  ++ owned_by key None (nonblank_lines text).
Proof. apply parse_resume_get. Qed.

Lemma parse_resume_lookup (text key : string) items :
  Parser.parse_resume text !! key = Some items →
  items ≠ [] ∧ Scorer.get (Parser.parse_resume text) key = items.
Proof.
  intros H. split; [|unfold Scorer.get; now rewrite H].
  unfold Parser.parse_resume, Parser.parse_lines in H.
  apply map_lookup_filter_Some in H as [_ H]. exact H.
Qed.

Lemma parse_resume_absent (text key : string) :
  Scorer.get (Parser.parse_resume text) key = [] →
  Parser.parse_resume text !! key = None.
Proof.
  intros G. destruct (Parser.parse_resume text !! key) as [items|] eqn:E; [|reflexivity].
  apply parse_resume_lookup in E as [N E]. congruence.
Qed.

Lemma owned_by_key key : ∀ lines current,
  owned_by key current lines ≠ [] →
  default "personal_info" current = key ∨ ∃ line, Parser.header_key line = Some key.
Proof.
  induction lines as [|line lines IH]; intros current H; simpl in H; [congruence|].
  destruct (Parser.header_key line) as [k|] eqn:E.
  - destruct (IH _ H) as [<-|?]; eauto.
  - destruct (String.eqb_spec (default "personal_info" current) key); auto.
Qed.

Lemma section_keywords_keys key :
  key ∈ Parser.section_keywords.*1 → key ≠ "other_sections" ∧ key ∈ Parser.section_keys.
Proof.
  simpl. intros H.
  repeat (apply elem_of_cons in H as [-> | H]);
    try (split; [discriminate | repeat constructor]; fail).
  inversion H.
Qed.

(** X2.  Every key of the parsed map is one of the twelve keys of
    [section_keywords], bound to a list that is not empty; the key
    [other_sections] of the initial dictionary is never filled and so never
    part of the result. *)
Theorem parse_resume_keys (text key : string) (items : list string) :
  Parser.parse_resume text !! key = Some items →
  items ≠ [] ∧ key ∈ Parser.section_keywords.*1 ∧ key ≠ "other_sections".
Proof.
  intros H. apply parse_resume_lookup in H as [N G].
  split; [exact N|]. rewrite parse_resume_get in G.
  assert (K : key ∈ Parser.section_keywords.*1).
  { destruct (String.eqb_spec "personal_info" key) as [<-|Npi]; [left|].
    simpl in G. rewrite <- G in N.
    destruct (owned_by_key _ _ _ N) as [E | [line E]]; [now destruct Npi|].
    eapply section_loop_key, E. }
  split; [exact K | apply section_keywords_keys, K].
Qed.

Lemma parse_resume_keys_witness :
  Parser.parse_resume "Rust" !! "personal_info" = Some ["Rust"]
  ∧ ["Rust"] ≠ []
  ∧ "personal_info" ∈ Parser.section_keywords.*1
  ∧ "personal_info" ≠ "other_sections".
Proof.
  split; [reflexivity|].
  apply (parse_resume_keys "Rust"). reflexivity.
Defined.

Lemma header_needs_short_line line key :
  Parser.header_key line = Some key → String.length line < 50.
Proof. intros H. now apply section_loop_first in H as [L _]. Qed.

Lemma filter_elem {A} (f : A → bool) x l : x ∈ l → f x = true → x ∈ List.filter f l.
Proof.
  intros H F. apply list_elem_of_In, filter_In. split; [now apply list_elem_of_In | exact F].
Qed.

(** X3.  A line of 50 characters or more, once stripped, is never a header,
    whatever keywords it holds: it is stored in the parsed map. *)
Theorem long_line_is_content (text raw : string) :
  raw ∈ split_on newline text →
  50 ≤ String.length (strip raw) →
  Parser.header_key (strip raw) = None
  ∧ strip raw ∈ stored_lines (Parser.parse_resume text).
Proof.
  intros Hin L.
  assert (H : Parser.header_key (strip raw) = None).
  { destruct (Parser.header_key (strip raw)) eqn:E; [|reflexivity].
    apply header_needs_short_line in E. lia. }
  split; [exact H|].
  unfold Parser.parse_resume. rewrite parse_lines_stored.
  apply elem_of_app. right.
  apply filter_elem; [|unfold is_header; now rewrite H].
  apply filter_elem; [now apply list_elem_of_fmap_2|].
  destruct (strip raw); [simpl in L; lia | reflexivity].
Qed.

Lemma long_line_is_content_witness :
  let raw := "Five years of professional experience in embedded software" in
  raw ∈ split_on newline raw
  ∧ 50 ≤ String.length (strip raw)
  ∧ Parser.header_key (strip raw) = None
  ∧ strip raw ∈ stored_lines (Parser.parse_resume raw).
Proof.
  intros raw. split; [left|]. split; [vm_compute; lia|].
  apply (long_line_is_content raw raw); [left | vm_compute; lia].
Defined.






Lemma owned_by_no_header key : ∀ lines current,
  List.filter is_header lines = [] →
  owned_by key current lines =
  if String.eqb (default "personal_info" current) key then lines else [].
Proof.
  induction lines as [|line lines IH]; intros current H; simpl in *.
  - now destruct (String.eqb _ key).
  - unfold is_header in H at 1.
    destruct (Parser.header_key line); [discriminate H|].
    rewrite (IH _ H). now destruct (String.eqb _ key).
Qed.

(** X5.  A text without header lines gives a map with [personal_info]
    alone, holding the contact lines followed by all the non-blank lines in
    their order; and the empty map when there is no such line at all. *)
Theorem parse_resume_without_headers (text : string) :
  header_lines text = [] →
  let all := Parser.contact_lines (split_on newline text) ++ nonblank_lines text in
  Parser.parse_resume text !! "personal_info"
    = (if truthy all then Some all else None)
  ∧ ∀ key, key ≠ "personal_info" → Parser.parse_resume text !! key = None.
Proof.
  intros H all. split.
  - pose proof (parse_resume_get text "personal_info") as G.
    rewrite (owned_by_no_header _ _ _ H) in G. simpl in G. fold all in G.
    destruct all as [|line rest] eqn:E; simpl.
    + now apply parse_resume_absent.
    + destruct (Parser.parse_resume text !! "personal_info") as [items|] eqn:L.
      * apply parse_resume_lookup in L as [_ L]. congruence.
      * unfold Scorer.get in G. rewrite L in G. discriminate G.
  - intros key N. apply parse_resume_absent.
    rewrite parse_resume_get, (owned_by_no_header _ _ _ H).
    change (default "personal_info" None) with "personal_info".
    destruct (String.eqb_spec "personal_info" key); [congruence | reflexivity].
Qed.

Lemma parse_resume_without_headers_witness :
  let text := "Ada Lovelace" +:+ String newline "London" in
  header_lines text = []
  ∧ Parser.parse_resume text !! "personal_info" = Some ["Ada Lovelace"; "London"]
  ∧ ∀ key, key ≠ "personal_info" → Parser.parse_resume text !! key = None.
Proof.
  intros text. split; [reflexivity|].
  apply (parse_resume_without_headers text). reflexivity.
Defined.

(** ** Where the matches come from *)

Lemma append_cons c (s t : string) : String c s +:+ t = String c (s +:+ t).
Proof. reflexivity. Qed.

Lemma append_assoc (a b c : string) : (a +:+ b) +:+ c = a +:+ (b +:+ c).
Proof.
  induction a as [|x a IH]; [reflexivity|]. rewrite !append_cons. f_equal. exact IH.
Qed.

Lemma greedy_prefix cls k :
  (∀ prev s m, k prev s = Some m → ∃ rest, s = m +:+ rest) →
  ∀ s lo hi prev m, Re.greedy cls k lo hi prev s = Some m → ∃ rest, s = m +:+ rest.
Proof.
  intros Hk.
  assert (Hstop : ∀ lo prev s m,
    match lo with O => k prev s | S _ => None end = Some m → ∃ rest, s = m +:+ rest).
  { intros [|lo] prev s m H; [eauto | discriminate]. }
  induction s as [|c s IH]; intros lo hi prev m H; simpl in H.
  - eapply Hstop, H.
  - destruct (cls c && Re.room hi); [|eapply Hstop, H].
    destruct (Re.greedy cls k (Nat.pred lo) (Re.less hi) (Some c) s) as [m0|] eqn:G;
      [|eapply Hstop, H].
    injection H as <-. destruct (IH _ _ _ _ G) as [rest ->].
    exists rest. reflexivity.
Qed.

Lemma match_here_prefix : ∀ re prev s m,
  Re.match_here re prev s = Some m → ∃ rest, s = m +:+ rest.
Proof.
  induction re as [|[cls lo hi|] re IH]; intros prev s m H; simpl in H.
  - injection H as <-. exists s. reflexivity.
  - eapply greedy_prefix; [|exact H]. intros. eapply IH. eassumption.
  - destruct (Re.at_boundary prev s); [eauto | discriminate].
Qed.

Lemma findall_from_substring re : ∀ s prev skip m,
  In m (Re.findall_from re prev skip s) → ∃ before after, s = before +:+ (m +:+ after).
Proof.
  assert (Hnext : ∀ c s m,
    (∃ before after, s = before +:+ (m +:+ after)) →
    ∃ before after, String c s = before +:+ (m +:+ after)).
  { intros c s m (before & after & ->). exists (String c before), after. reflexivity. }
  induction s as [|c s IH]; intros prev [|n] m H; simpl in H.
  - destruct (Re.match_here re prev EmptyString) eqn:E; simpl in H; [|tauto].
    destruct H as [<-|[]]. apply match_here_prefix in E as [rest E].
    exists EmptyString, rest. exact E.
  - tauto.
  - destruct (Re.match_here re prev (String c s)) eqn:E; simpl in H.
    + destruct H as [<-|H]; [|eauto].
      apply match_here_prefix in E as [rest E]. exists EmptyString, rest. exact E.
    + eauto.
  - eauto.
Qed.

Lemma startswith_append m rest : startswith m (m +:+ rest) = true.
Proof.
  induction m as [|c m IH]; simpl; [reflexivity|]. now rewrite Ascii.eqb_refl.
Qed.

Lemma contains_unfold sub s :
  contains sub s =
  startswith sub s || match s with EmptyString => false | String _ s' => contains sub s' end.
Proof. destruct s; reflexivity. Qed.

Lemma contains_middle m before after : contains m (before +:+ (m +:+ after)) = true.
Proof.
  induction before as [|c before IH].
  - change (EmptyString +:+ (m +:+ after)) with (m +:+ after).
    rewrite contains_unfold, startswith_append. reflexivity.
  - rewrite append_cons, contains_unfold, IH. apply orb_true_r.
Qed.

Lemma findall_contains re s m : In m (Re.findall re s) → contains m s = true.
Proof.
  intros H. apply findall_from_substring in H as (before & after & ->).
  apply contains_middle.
Qed.

Lemma all_chars_one (c : ascii) m :
  all_chars (Re.one_of (String c EmptyString)) m = true →
  1 ≤ String.length m → String.length m ≤ 1 → m = String c EmptyString.
Proof.
  destruct m as [|d [|e m]]; simpl; intros A L1 L2; try lia.
  unfold Re.one_of in A. rewrite andb_true_r, contains_unfold in A.
  cbn [startswith] in A.
  destruct (Ascii.eqb d c) eqn:E; [|discriminate A].
  apply Ascii.eqb_eq in E. now rewrite E.
Qed.

Lemma email_pieces_at e : pieces Parser.email_pattern e → contains "@" e = true.
Proof.
  unfold Parser.email_pattern, Re.plus, Re.exactly_one. simpl.
  intros (m1 & r1 & -> & _ & _ & _ & m2 & r2 & -> & A & L & F & _).
  simpl in F. rewrite (all_chars_one _ _ A L F).
  apply (contains_middle "@").
Qed.

(** X6.  A contact line of the parser is grounded in the text: an
    "Email: " line carries a piece of the joined text that holds an at sign,
    a "Phone: " line a piece of the joined text that holds at least 4
    digits. *)
Theorem contact_lines_grounded (lines : list string) (l : string) :
  In l (Parser.contact_lines lines) →
  (∃ e, l = "Email: " +:+ e ∧ contains e (join " " lines) = true
        ∧ contains "@" e = true)
  ∨ (∃ p, l = "Phone: " +:+ p ∧ contains p (join " " lines) = true
          ∧ 4 ≤ count_digits p).
Proof.
  unfold Parser.contact_lines. intros H. apply in_app_or in H as [H|H].
  - destruct (Re.findall Parser.email_pattern _) as [|e rest] eqn:E; [destruct H|].
    destruct H as [<-|[]]. left. exists e.
    assert (Hin : In e (Re.findall Parser.email_pattern (join " " lines)))
      by (rewrite E; now left).
    split; [reflexivity|]. split; [eapply findall_contains, Hin|].
    apply findall_from_sound in Hin as (prev & s & Hm).
    eapply email_pieces_at, match_here_sound, Hm.
  - destruct (Re.findall Parser.phone_pattern _) as [|p rest] eqn:E; [destruct H|].
    destruct H as [<-|[]]. right. exists p.
    assert (Hin : In p (Re.findall Parser.phone_pattern (join " " lines)))
      by (rewrite E; now left).
    split; [reflexivity|]. split; [eapply findall_contains, Hin|].
    apply findall_from_sound in Hin as (prev & s & Hm).
    eapply phone_pieces_digits, match_here_sound, Hm.
Qed.

Lemma contact_lines_grounded_witness :
  let lines := ["Ada"; "ada@math.org"] in
  In "Email: ada@math.org" (Parser.contact_lines lines)
  ∧ ((∃ e, "Email: ada@math.org" = "Email: " +:+ e
           ∧ contains e (join " " lines) = true ∧ contains "@" e = true)
     ∨ (∃ p, "Email: ada@math.org" = "Phone: " +:+ p
             ∧ contains p (join " " lines) = true ∧ 4 ≤ count_digits p)).
Proof.
  intros lines. split; [now left|].
  apply (contact_lines_grounded lines). now left.
Defined.

(** ** Sub-scores in closed form *)

Section Points.

Import Scorer.

Variable parsed_data : gmap string (list string).
Variable full_text : string.

Local Ltac eval_points :=
  intros; unfold booked;
  repeat match goal with
  | |- context [if ?b then _ else _] => destruct b
  end;
  reflexivity.

Lemma contact_booked :
  booked (contact_block parsed_data) =
  ((if any_mentions "email" (get parsed_data "personal_info") then 5 else 0)
   + (if any_mentions "phone" (get parsed_data "personal_info") then 5 else 0))%Z.
Proof. unfold contact_block. eval_points. Qed.

Lemma education_booked :
  booked (education_block parsed_data) =
  if truthy (get parsed_data "education")
  then Z.min 15 (len (get parsed_data "education") * 5) else 0%Z.
Proof. unfold education_block. eval_points. Qed.

Lemma skills_booked :
  booked (skills_block parsed_data) =
  if truthy (get parsed_data "skills")
  then Z.min 15 (count_skills (get parsed_data "skills")) else 0%Z.
Proof. unfold skills_block. eval_points. Qed.

Lemma projects_booked :
  booked (projects_block parsed_data) =
  if truthy (get parsed_data "projects")
  then Z.min 10 (len (get parsed_data "projects") * 3) else 0%Z.
Proof. unfold projects_block. eval_points. Qed.

Lemma cert_booked :
  booked (cert_block parsed_data) =
  if truthy (get parsed_data "certifications")
  then Z.min 8 (len (get parsed_data "certifications") * 2) else 0%Z.
Proof. unfold cert_block. eval_points. Qed.

Lemma research_booked :
  booked (research_block parsed_data) =
  if truthy (get parsed_data "research")
  then Z.min 7 (len (get parsed_data "research") * 3) else 0%Z.
Proof. unfold research_block. eval_points. Qed.

Lemma formatting_booked :
  booked (formatting_block parsed_data full_text) =
  ((if (section_count parsed_data >=? 4)%Z then 5 else 0)
   + (if (found_verbs full_text >=? 5)%Z then 5
      else if (found_verbs full_text >=? 2)%Z then 3 else 0))%Z.
Proof. unfold formatting_block. eval_points. Qed.

(** The value a block hands to the recommendations. *)
Lemma contact_value a : (contact_block parsed_data a).1 = booked (contact_block parsed_data).
Proof. unfold contact_block. eval_points. Qed.

Lemma education_value a :
  (education_block parsed_data a).1 = booked (education_block parsed_data).
Proof. unfold education_block. eval_points. Qed.

Lemma experience_value a :
  ((experience_block parsed_data a).1 <? 15)%Z
  = (booked (experience_block parsed_data) <? 15)%Z.
Proof.
  pose proof (len_nonneg (get parsed_data "experience")).
  unfold experience_block, booked.
  repeat match goal with
  | |- context [if ?b then _ else _] => destruct b
  end;
  cbn [fst snd book say acc_score];
  repeat match goal with
  | |- context [(?x <? ?y)%Z] => destruct (Z.ltb_spec x y)
  end; try reflexivity; lia.
Qed.

Lemma skills_value a : (skills_block parsed_data a).1 = booked (skills_block parsed_data).
Proof. unfold skills_block. eval_points. Qed.

Lemma projects_value a :
  (projects_block parsed_data a).1 = booked (projects_block parsed_data).
Proof. unfold projects_block. eval_points. Qed.

Lemma cert_value a : (cert_block parsed_data a).1 = booked (cert_block parsed_data).
Proof. unfold cert_block. eval_points. Qed.

Lemma formatting_value a :
  (formatting_block parsed_data full_text a).1
  = booked (formatting_block parsed_data full_text).
Proof. unfold formatting_block. eval_points. Qed.

Lemma advise_experience x y message l :
  (x <? 15)%Z = (y <? 15)%Z → advise x 15 message l = advise y 15 message l.
Proof. unfold advise. now intros ->. Qed.

(** The recommendations in terms of what each block books. *)
Lemma recommendations_by_blocks :
  recommendations (calculate_ats_score parsed_data full_text) =
  let found :=
    advise (booked (formatting_block parsed_data full_text)) 7
      "Use more action verbs and improve resume structure"
    (advise (booked (cert_block parsed_data)) 4
      "Add professional certifications if available"
    (advise (booked (projects_block parsed_data)) 5
      "Include relevant projects to showcase your abilities"
    (advise (booked (skills_block parsed_data)) 10
      "Expand your skills section with relevant technical and soft skills"
    (advise (booked (experience_block parsed_data)) 15
      "Add more work experience details with quantifiable achievements"
    (advise (booked (education_block parsed_data)) 10
      "Add or expand your education section"
    (advise (booked (contact_block parsed_data)) 10
      "Add complete contact information (email and phone)" [])))))) in
  if truthy found then found else ["Your resume looks great! Keep it updated."].
Proof.
  unfold calculate_ats_score.
  pose proof (contact_value (Acc 0 [] [])) as V.
  destruct (contact_block parsed_data _) as [s1 a1]; simpl in V; subst s1.
  pose proof (education_value a1) as V.
  destruct (education_block parsed_data _) as [s2 a2]; simpl in V; subst s2.
  pose proof (experience_value a2) as V3.
  destruct (experience_block parsed_data _) as [s3 a3]; simpl in V3.
  pose proof (skills_value a3) as V.
  destruct (skills_block parsed_data _) as [s4 a4]; simpl in V; subst s4.
  pose proof (projects_value a4) as V.
  destruct (projects_block parsed_data _) as [s5 a5]; simpl in V; subst s5.
  pose proof (cert_value a5) as V.
  destruct (cert_block parsed_data _) as [s6 a6]; simpl in V; subst s6.
  destruct (research_block parsed_data _) as [s7 a7].
  pose proof (formatting_value a7) as V.
  destruct (formatting_block parsed_data full_text _) as [s8 a8]; simpl in V; subst s8.
  cbn [recommendations]. cbv zeta.
  now rewrite (advise_experience _ _ _ _ V3).
Qed.

End Points.

(** ** From the parsed map to the contact score *)

Lemma sub_scores (parsed_data : gmap string (list string)) (full_text : string) :
  let r := Scorer.calculate_ats_score parsed_data full_text in
  Scorer.sub_score "Contact Information" r
    = Some (Scorer.booked (Scorer.contact_block parsed_data))
  ∧ Scorer.sub_score "Education" r
    = Some (Scorer.booked (Scorer.education_block parsed_data))
  ∧ Scorer.sub_score "Work Experience" r
    = Some (Scorer.booked (Scorer.experience_block parsed_data))
  ∧ Scorer.sub_score "Skills" r
    = Some (Scorer.booked (Scorer.skills_block parsed_data))
  ∧ Scorer.sub_score "Projects" r
    = Some (Scorer.booked (Scorer.projects_block parsed_data))
  ∧ Scorer.sub_score "Certifications" r
    = Some (Scorer.booked (Scorer.cert_block parsed_data))
  ∧ Scorer.sub_score "Research & Publications" r
    = Some (Scorer.booked (Scorer.research_block parsed_data))
  ∧ Scorer.sub_score "Formatting & Keywords" r
    = Some (Scorer.booked (Scorer.formatting_block parsed_data full_text)).
Proof.
  intros r. destruct (report_by_blocks parsed_data full_text) as (_ & _ & Hb & _).
  fold r in Hb. unfold Scorer.sub_score. rewrite Hb. repeat split; reflexivity.
Qed.

Lemma email_line_mentions e rest :
  Scorer.any_mentions "email" (("Email: " +:+ e) :: rest) = true.
Proof. reflexivity. Qed.

Lemma phone_line_mentions p first rest :
  Scorer.any_mentions "phone" (first :: ("Phone: " +:+ p) :: rest) = true.
Proof.
  unfold Scorer.any_mentions. cbn [existsb].
  replace (contains "phone" (lower ("Phone: " +:+ p))) with true by reflexivity.
  now rewrite orb_true_r.
Qed.

(** X7.  When the joined text holds a match of the e-mail pattern and a
    match of the phone pattern, scoring the parsed map gives the full Contact
    Information sub-score of 10, whatever else the text holds. *)
Theorem parsed_contact_score (text full_text e p : string) (es ps : list string) :
  Re.findall Parser.email_pattern (join " " (split_on newline text)) = e :: es →
  Re.findall Parser.phone_pattern (join " " (split_on newline text)) = p :: ps →
  Scorer.sub_score "Contact Information"
    (Scorer.calculate_ats_score (Parser.parse_resume text) full_text) = Some 10%Z.
Proof.
  intros He Hp.
  destruct (sub_scores (Parser.parse_resume text) full_text) as (-> & _).
  rewrite contact_booked, parse_resume_get.
  unfold Parser.contact_lines. rewrite He, Hp.
  change (String.eqb "personal_info" "personal_info") with true. cbn [app].
  now rewrite email_line_mentions, phone_line_mentions.
Qed.

Lemma parsed_contact_score_witness :
  let text := "ada@math.org" +:+ String newline "020 7946 0000" in
  Re.findall Parser.email_pattern (join " " (split_on newline text)) = ["ada@math.org"]
  ∧ Re.findall Parser.phone_pattern (join " " (split_on newline text)) = ["020 7946 0000"]
  ∧ Scorer.sub_score "Contact Information"
      (Scorer.calculate_ats_score (Parser.parse_resume text) text) = Some 10%Z.
Proof.
  intros text. split; [reflexivity|]. split; [reflexivity|].
  apply (parsed_contact_score text text "ada@math.org" "020 7946 0000" [] []);
    reflexivity.
Defined.

(** ** The recommendations *)

(** X8.  The list of recommendations is never empty.  It is the single
    message "Your resume looks great! Keep it updated." exactly when the
    Contact Information, Education, Work Experience, Skills, Projects,
    Certifications and Formatting & Keywords sub-scores reach 10, 10, 15, 10,
    5, 4 and 7; the report then has a score of at least 61.  The Research &
    Publications sub-score plays no part. *)
Theorem recommendations_positive
    (parsed_data : gmap string (list string)) (full_text : string) :
  let r := Scorer.calculate_ats_score parsed_data full_text in
  Scorer.recommendations r ≠ []
  ∧ (Scorer.recommendations r = ["Your resume looks great! Keep it updated."]
     ↔ meets_thresholds r)
  ∧ (meets_thresholds r → (61 ≤ Scorer.score r)%Z).
Proof.
  intros r. unfold meets_thresholds.
  destruct (sub_scores parsed_data full_text)
    as (S1 & S2 & S3 & S4 & S5 & S6 & _ & S8).
  fold r in S1, S2, S3, S4, S5, S6, S8. rewrite S1, S2, S3, S4, S5, S6, S8.
  destruct (report_by_blocks parsed_data full_text) as (Hs & _).
  fold r in Hs. rewrite Hs.
  pose proof (research_bounds parsed_data) as B.
  unfold r. rewrite recommendations_by_blocks.
  generalize (Scorer.booked (Scorer.contact_block parsed_data)) as c.
  generalize (Scorer.booked (Scorer.education_block parsed_data)) as e.
  generalize (Scorer.booked (Scorer.experience_block parsed_data)) as w.
  generalize (Scorer.booked (Scorer.skills_block parsed_data)) as s.
  generalize (Scorer.booked (Scorer.projects_block parsed_data)) as p.
  generalize (Scorer.booked (Scorer.cert_block parsed_data)) as k.
  generalize (Scorer.booked (Scorer.formatting_block parsed_data full_text)) as f.
  intros f k p s w e c. unfold Scorer.advise. cbv zeta.
  split; [|split].
  - repeat match goal with
    | |- context [(?x <? ?y)%Z] => destruct (x <? y)%Z
    end; discriminate.
  - split.
    + intros H. exists c, e, w, s, p, k, f. repeat split; try reflexivity;
        repeat match goal with
        | H : context [(?x <? ?y)%Z] |- _ => destruct (Z.ltb_spec x y)
        end; try discriminate H; lia.
    + intros (c' & e' & w' & s' & p' & k' & f' & [= <-] & [= <-] & [= <-]
              & [= <-] & [= <-] & [= <-] & [= <-] & T).
      repeat match goal with
      | |- context [(?x <? ?y)%Z] => destruct (Z.ltb_spec x y)
      end; try reflexivity; lia.
  - intros (c' & e' & w' & s' & p' & k' & f' & [= <-] & [= <-] & [= <-]
            & [= <-] & [= <-] & [= <-] & [= <-] & T). lia.
Qed.

Lemma recommendations_positive_witness :
  let parsed_data : gmap string (list string) :=
    {[ "personal_info" := ["Email: ada@math.org"; "Phone: 020 7946 0000"];
       "education" := ["BSc Mathematics"; "MSc Computing"];
       "experience" := ["Analyst"; "Engineer"; "Lead"];
       "skills" := ["C, Rust, Go, SQL, Git, Linux, Rocq, OCaml, Lean, TLA"];
       "projects" := ["Compiler"; "Prover"];
       "certifications" := ["AWS"; "CKA"] ]} in
  let r := Scorer.calculate_ats_score parsed_data "designed and developed" in
  meets_thresholds r ∧ (61 ≤ Scorer.score r)%Z.
Proof.
  intros parsed_data r.
  assert (M : meets_thresholds r).
  { exists 10%Z, 10%Z, 15%Z, 10%Z, 6%Z, 4%Z, 8%Z. vm_compute.
    repeat split; congruence. }
  split; [exact M|].
  apply (recommendations_positive parsed_data "designed and developed"). exact M.
Defined.

(** ** What the scorer reads of the map *)

Section Reads.

Import Scorer.

Variables pd pd' : gmap string (list string).
Hypothesis same_get : ∀ key, get pd key = get pd' key.
Hypothesis same_count : section_count pd = section_count pd'.

Lemma contact_ext a : contact_block pd a = contact_block pd' a.
Proof. unfold contact_block. now rewrite same_get. Qed.

Lemma education_ext a : education_block pd a = education_block pd' a.
Proof. unfold education_block. now rewrite same_get. Qed.

Lemma experience_ext a : experience_block pd a = experience_block pd' a.
Proof. unfold experience_block. now rewrite same_get. Qed.

Lemma skills_ext a : skills_block pd a = skills_block pd' a.
Proof. unfold skills_block. now rewrite same_get. Qed.

Lemma projects_ext a : projects_block pd a = projects_block pd' a.
Proof. unfold projects_block. now rewrite same_get. Qed.

Lemma cert_ext a : cert_block pd a = cert_block pd' a.
Proof. unfold cert_block. now rewrite same_get. Qed.

Lemma research_ext a : research_block pd a = research_block pd' a.
Proof. unfold research_block. now rewrite same_get. Qed.

Lemma formatting_ext text a : formatting_block pd text a = formatting_block pd' text a.
Proof. unfold formatting_block. now rewrite same_count. Qed.

Lemma calculate_ext text : calculate_ats_score pd text = calculate_ats_score pd' text.
Proof.
  unfold calculate_ats_score.
  rewrite contact_ext. destruct (contact_block pd' _) as [s1 a1].
  rewrite education_ext. destruct (education_block pd' _) as [s2 a2].
  rewrite experience_ext. destruct (experience_block pd' _) as [s3 a3].
  rewrite skills_ext. destruct (skills_block pd' _) as [s4 a4].
  rewrite projects_ext. destruct (projects_block pd' _) as [s5 a5].
  rewrite cert_ext. destruct (cert_block pd' _) as [s6 a6].
  rewrite research_ext. destruct (research_block pd' _) as [s7 a7].
  rewrite formatting_ext. reflexivity.
Qed.

End Reads.

(** X9.  The scorer does not tell a section bound to the empty list from a
    missing one: the two maps get the same report. *)
Theorem empty_section_is_absent
    (parsed_data : gmap string (list string)) (key full_text : string) :
  Scorer.calculate_ats_score (<[key := []]> parsed_data) full_text
  = Scorer.calculate_ats_score (delete key parsed_data) full_text.
Proof.
  apply calculate_ext.
  - intros k. unfold Scorer.get. destruct (decide (key = k)) as [<-|N].
    + now rewrite lookup_insert_eq, lookup_delete_eq.
    + now rewrite lookup_insert_ne, lookup_delete_ne.
  - unfold Scorer.section_count.
    now rewrite map_filter_insert_False by (simpl; congruence).
Qed.

(** ** Growing sections *)

Section Grows.

Import Scorer.

Variables pd pd' : gmap string (list string).
Hypothesis grows : ∀ key, ∃ extra, get pd' key = get pd key ++ extra.

Lemma truthy_grows {A} (items extra : list A) :
  truthy items = true → truthy (items ++ extra) = true.
Proof. now destruct items. Qed.

Lemma len_grows {A} (items extra : list A) : (len items ≤ len (items ++ extra))%Z.
Proof. unfold len. rewrite length_app. lia. Qed.

Lemma any_mentions_grows word items extra :
  any_mentions word items = true → any_mentions word (items ++ extra) = true.
Proof. unfold any_mentions. rewrite existsb_app. now intros ->. Qed.

Lemma contact_grows :
  (booked (contact_block pd) ≤ booked (contact_block pd'))%Z.
Proof.
  rewrite !contact_booked. destruct (grows "personal_info") as [extra ->].
  pose proof (any_mentions_grows "email" (get pd "personal_info") extra).
  pose proof (any_mentions_grows "phone" (get pd "personal_info") extra).
  destruct (any_mentions "email" (get pd "personal_info")),
    (any_mentions "phone" (get pd "personal_info"));
    repeat match goal with
    | H : true = true → _ |- _ => rewrite (H eq_refl); clear H
    end;
    repeat match goal with
    | |- context [if ?b then _ else _] => destruct b
    end; lia.
Qed.

Local Ltac counted key :=
  destruct (grows key) as [extra ->];
  pose proof (truthy_grows (get pd key) extra);
  pose proof (len_grows (get pd key) extra);
  pose proof (len_nonneg (get pd key));
  destruct (truthy (get pd key));
  [ match goal with H : true = true → _ |- _ => rewrite (H eq_refl) end; lia
  | destruct (truthy (get pd key ++ extra)); lia ].

Lemma education_grows :
  (booked (education_block pd) ≤ booked (education_block pd'))%Z.
Proof. rewrite !education_booked. counted "education". Qed.

Lemma projects_grows :
  (booked (projects_block pd) ≤ booked (projects_block pd'))%Z.
Proof. rewrite !projects_booked. counted "projects". Qed.

Lemma cert_grows : (booked (cert_block pd) ≤ booked (cert_block pd'))%Z.
Proof. rewrite !cert_booked. counted "certifications". Qed.

Lemma research_grows :
  (booked (research_block pd) ≤ booked (research_block pd'))%Z.
Proof. rewrite !research_booked. counted "research". Qed.

Lemma count_skills_app items extra :
  count_skills (items ++ extra) = (count_skills items + count_skills extra)%Z.
Proof.
  induction items as [|item items IH]; simpl; [reflexivity|]. rewrite IH. lia.
Qed.

Lemma skills_grows : (booked (skills_block pd) ≤ booked (skills_block pd'))%Z.
Proof.
  rewrite !skills_booked. destruct (grows "skills") as [extra ->].
  pose proof (truthy_grows (get pd "skills") extra).
  pose proof (count_skills_app (get pd "skills") extra).
  pose proof (count_skills_nonneg (get pd "skills")).
  pose proof (count_skills_nonneg extra).
  pose proof (count_skills_nonneg (get pd "skills" ++ extra)).
  destruct (truthy (get pd "skills"));
  [ match goal with H : true = true → _ |- _ => rewrite (H eq_refl) end; lia
  | destruct (truthy (get pd "skills" ++ extra)); lia ].
Qed.

Lemma experience_formula_grows items extra :
  (experience_formula items ≤ experience_formula (items ++ extra))%Z.
Proof.
  unfold experience_formula. pose proof (len_grows items extra).
  rewrite existsb_app.
  destruct (existsb has_digit items), (existsb has_digit extra); simpl; lia.
Qed.

Lemma experience_grows :
  (booked (experience_block pd) ≤ booked (experience_block pd'))%Z.
Proof.
  rewrite !experience_booked. destruct (grows "experience") as [extra ->].
  apply experience_formula_grows.
Qed.

Lemma section_count_grows : (section_count pd ≤ section_count pd')%Z.
Proof.
  unfold section_count. apply inj_le.
  rewrite <- !size_dom. apply subseteq_size. intros key Hk.
  apply elem_of_dom in Hk as [v Hv]. apply map_lookup_filter_Some in Hv as [Hv Hne].
  simpl in Hne. destruct (grows key) as [extra G]. unfold get in G. rewrite Hv in G.
  simpl in G. apply elem_of_dom.
  destruct (pd' !! key) as [v'|] eqn:E; simpl in G.
  - exists v'. apply map_lookup_filter_Some. split; [exact E|]. simpl.
    subst v'. now destruct v.
  - destruct v; [congruence | discriminate G].
Qed.

Lemma formatting_grows text :
  (booked (formatting_block pd text) ≤ booked (formatting_block pd' text))%Z.
Proof.
  rewrite !formatting_booked. pose proof section_count_grows.
  destruct (Z.geb_spec (section_count pd) 4), (Z.geb_spec (section_count pd') 4);
    try lia;
    repeat match goal with
    | |- context [if ?b then _ else _] => destruct b
    end; lia.
Qed.

End Grows.

(** X10.  When every section list of a map is extended (lines are appended,
    none removed or changed), the total score does not decrease. *)
Theorem score_monotone (pd pd' : gmap string (list string)) (full_text : string) :
  (∀ key, ∃ extra, Scorer.get pd' key = Scorer.get pd key ++ extra) →
  (Scorer.score (Scorer.calculate_ats_score pd full_text)
   ≤ Scorer.score (Scorer.calculate_ats_score pd' full_text))%Z.
Proof.
  intros G.
  destruct (report_by_blocks pd full_text) as (-> & _).
  destruct (report_by_blocks pd' full_text) as (-> & _).
  pose proof (contact_grows pd pd' G).
  pose proof (education_grows pd pd' G).
  pose proof (experience_grows pd pd' G).
  pose proof (skills_grows pd pd' G).
  pose proof (projects_grows pd pd' G).
  pose proof (cert_grows pd pd' G).
  pose proof (research_grows pd pd' G).
  pose proof (formatting_grows pd pd' G full_text).
  lia.
Qed.

Lemma score_monotone_witness :
  let pd : gmap string (list string) := {[ "projects" := ["Compiler"] ]} in
  let pd' : gmap string (list string) := <["projects" := ["Compiler"; "Prover"]]> pd in
  (∀ key, ∃ extra, Scorer.get pd' key = Scorer.get pd key ++ extra)
  ∧ (Scorer.score (Scorer.calculate_ats_score pd EmptyString)
     ≤ Scorer.score (Scorer.calculate_ats_score pd' EmptyString))%Z.
Proof.
  intros pd pd'.
  assert (G : ∀ key, ∃ extra, Scorer.get pd' key = Scorer.get pd key ++ extra).
  { intros key. unfold Scorer.get, pd'. destruct (decide ("projects" = key)) as [<-|N].
    - exists ["Prover"]. now rewrite lookup_insert_eq.
    - exists []. now rewrite lookup_insert_ne, app_nil_r. }
  split; [exact G|].
  apply (score_monotone pd pd' EmptyString G).
Defined.

(** ** Counting skills *)

Lemma length_split_on sep s : length (split_on sep s) = S (count_char sep s).
Proof.
  induction s as [|c s IH]; simpl; [reflexivity|].
  destruct (Ascii.eqb c sep); simpl; [now rewrite IH|].
  destruct (split_on sep s); simpl in *; [discriminate IH | exact IH].
Qed.

Lemma count_skills_commas items :
  Scorer.count_skills items =
  Z.of_nat (length items + sum_list (count_char comma <$> items)).
Proof.
  induction items as [|item items IH]; simpl; [reflexivity|].
  rewrite IH. unfold Scorer.len. rewrite length_split_on.
  change (list_fmap string nat (count_char comma) items)
    with (count_char comma <$> items).
  lia.
Qed.

(** X11.  The Skills sub-score is the number of lines of the skills section
    plus the number of commas in them, capped at 15: every comma counts,
    whether or not a skill stands on both sides of it. *)
Theorem skills_score_counts_commas
    (parsed_data : gmap string (list string)) (full_text : string) :
  let items := Scorer.get parsed_data "skills" in
  Scorer.sub_score "Skills" (Scorer.calculate_ats_score parsed_data full_text)
  = Some (Z.min 15 (Z.of_nat (length items + sum_list (count_char comma <$> items)))).
Proof.
  intros items.
  destruct (sub_scores parsed_data full_text) as (_ & _ & _ & -> & _).
  rewrite skills_booked. fold items. rewrite count_skills_commas.
  now destruct items.
Qed.

(** ** The extracted text, line by line *)

Lemma split_on_cons sep s : ∃ piece rest, split_on sep s = piece :: rest.
Proof.
  induction s as [|c s (piece & rest & IH)]; simpl; [eauto|].
  destruct (Ascii.eqb c sep); [eauto|]. rewrite IH. eauto.
Qed.

Lemma split_on_append sep s t :
  split_on sep (s +:+ String sep t) = split_on sep s ++ split_on sep t.
Proof.
  induction s as [|c s IH].
  - change (EmptyString +:+ String sep t) with (String sep t). simpl.
    now rewrite Ascii.eqb_refl.
  - rewrite append_cons. simpl. rewrite IH.
    destruct (Ascii.eqb c sep); [reflexivity|].
    destruct (split_on_cons sep s) as (piece & rest & ->). reflexivity.
Qed.

Lemma split_on_without sep s : count_char sep s = 0 → split_on sep s = [s].
Proof.
  induction s as [|c s IH]; simpl; [reflexivity|].
  destruct (Ascii.eqb c sep); [discriminate|]. intros H. now rewrite IH.
Qed.

Lemma extract_loop (units : list string) : ∀ text,
  foldl (λ text unit, text +:+ (unit +:+ String newline EmptyString)) text units
  = text +:+ foldl (λ text unit, text +:+ (unit +:+ String newline EmptyString))
               EmptyString units.
Proof.
  assert (R : ∀ s : string, s +:+ EmptyString = s).
  { induction s as [|c s IH]; [reflexivity|]. rewrite append_cons. now rewrite IH. }
  induction units as [|unit units IH]; intros text; simpl.
  - now rewrite R.
  - rewrite IH, (IH (EmptyString +:+ _)).
    change (EmptyString +:+ (unit +:+ String newline EmptyString))
      with (unit +:+ String newline EmptyString).
    now rewrite append_assoc.
Qed.

Lemma extract_lines (units : list string) :
  split_on newline
    (foldl (λ text unit, text +:+ (unit +:+ String newline EmptyString)) EmptyString units)
  = concat (split_on newline <$> units) ++ [EmptyString].
Proof.
  induction units as [|unit units IH]; simpl; [reflexivity|].
  rewrite extract_loop.
  change (EmptyString +:+ (unit +:+ String newline EmptyString))
    with (unit +:+ String newline EmptyString).
  rewrite append_assoc. change (String newline EmptyString +:+ ?x) with (String newline x).
  rewrite split_on_append, IH. now rewrite <- app_assoc.
Qed.

Lemma seen_app l1 l2 : seen (l1 ++ l2) = seen l1 ++ seen l2.
Proof. unfold seen. now rewrite fmap_app, List.filter_app. Qed.

(** X12.  The lines of the text extracted from a PDF are the lines of its
    pages, page after page, followed by one empty line: the last line of a
    page and the first line of the next never run together.  The parser
    therefore sees exactly the non-blank lines of the pages, in order. *)
Theorem pdf_text_lines (pages : list string) :
  split_on newline (Extractor.extract_text_from_pdf pages)
  = concat (split_on newline <$> pages) ++ [EmptyString]
  ∧ nonblank_lines (Extractor.extract_text_from_pdf pages)
    = seen (concat (split_on newline <$> pages)).
Proof.
  unfold nonblank_lines, Extractor.extract_text_from_pdf. rewrite extract_lines.
  split; [reflexivity|]. rewrite seen_app. apply app_nil_r.
Qed.

Lemma concat_singletons (paragraphs : list string) :
  Forall (λ paragraph, count_char newline paragraph = 0) paragraphs →
  concat (split_on newline <$> paragraphs) = paragraphs.
Proof.
  induction 1 as [|paragraph paragraphs H _ IH]; [reflexivity|].
  rewrite fmap_cons. cbn [concat]. now rewrite (split_on_without _ _ H), IH.
Qed.

(** X13.  When no paragraph of a DOCX holds a line break, splitting the
    extracted text into lines gives the paragraphs back, empty ones included,
    followed by one empty line; the parser sees the non-blank paragraphs in
    order. *)
Theorem docx_text_lines (paragraphs : list string) :
  Forall (λ paragraph, count_char newline paragraph = 0) paragraphs →
  split_on newline (Extractor.extract_text_from_docx paragraphs)
  = paragraphs ++ [EmptyString]
  ∧ nonblank_lines (Extractor.extract_text_from_docx paragraphs) = seen paragraphs.
Proof.
  intros H. unfold nonblank_lines, Extractor.extract_text_from_docx.
  rewrite extract_lines, (concat_singletons _ H).
  split; [reflexivity|]. rewrite seen_app. apply app_nil_r.
Qed.

Lemma docx_text_lines_witness :
  let paragraphs := ["Ada Lovelace"; EmptyString; "Skills"; "Rocq, OCaml"] in
  Forall (λ paragraph, count_char newline paragraph = 0) paragraphs
  ∧ split_on newline (Extractor.extract_text_from_docx paragraphs)
    = paragraphs ++ [EmptyString]
  ∧ nonblank_lines (Extractor.extract_text_from_docx paragraphs) = seen paragraphs.
Proof.
  intros paragraphs.
  assert (H : Forall (λ paragraph, count_char newline paragraph = 0) paragraphs)
    by (repeat constructor).
  split; [exact H|]. apply (docx_text_lines paragraphs H).
Defined.

(** ** The saved-resume handler *)

Example direct_url_of_share_link :
  SavedResume.direct_url "https://drive.google.com/file/d/1AbC_9/view?usp=sharing"
  = "https://drive.google.com/uc?export=download&id=1AbC_9".
Proof. reflexivity. Qed.

Lemma append_empty (s : string) : s +:+ EmptyString = s.
Proof. induction s as [|c s IH]; [reflexivity|]. rewrite append_cons. now rewrite IH. Qed.

Lemma substring_all s : substring 0 (String.length s) s = s.
Proof. induction s as [|c s IH]; simpl; [reflexivity | now rewrite IH]. Qed.

Lemma count_char_none (c : ascii) s :
  all_chars (λ d, negb (Re.one_of (String c EmptyString) d)) s = true →
  count_char c s = 0.
Proof.
  induction s as [|d s IH]; simpl; [reflexivity|].
  intros [Hd H]%andb_prop. rewrite (IH H).
  unfold Re.one_of in Hd. rewrite contains_unfold in Hd. cbn [startswith] in Hd.
  now destruct (Ascii.eqb d c).
Qed.

Lemma file_id_pieces m :
  pieces SavedResume.file_id_pattern m →
  ∃ id, m = "/d/" +:+ id ∧ SavedResume.group_1 m = id
        ∧ id ≠ EmptyString ∧ count_char "/" id = 0.
Proof.
  unfold SavedResume.file_id_pattern, Re.exactly_one, Re.plus. simpl.
  intros (m1 & r1 & -> & A1 & L1 & F1 & m2 & r2 & -> & A2 & L2 & F2
          & m3 & r3 & -> & A3 & L3 & F3 & id & r4 & -> & A4 & L4 & _ & ->).
  simpl in F1, F2, F3.
  rewrite (all_chars_one _ _ A1 L1 F1), (all_chars_one _ _ A2 L2 F2),
    (all_chars_one _ _ A3 L3 F3), append_empty.
  exists id. split; [reflexivity|]. split; [|split].
  - unfold SavedResume.group_1.
    change ("/" +:+ "d" +:+ "/" +:+ id) with (String "/" (String "d" (String "/" id))).
    cbn [String.length substring].
    replace (S (S (S (String.length id))) - 3) with (String.length id) by lia.
    apply substring_all.
  - destruct id; [simpl in L4; lia | discriminate].
  - now apply count_char_none.
Qed.

(** X14.  The address built for the download is the stored address itself
    or the download address of Google Drive for a file identifier; the
    identifier is not empty, holds no slash and stands right after a "/d/"
    in the stored address. *)
Theorem direct_url_file_id (resume_url : string) :
  SavedResume.direct_url resume_url = resume_url
  ∨ ∃ id, SavedResume.direct_url resume_url
            = "https://drive.google.com/uc?export=download&id=" +:+ id
          ∧ id ≠ EmptyString ∧ count_char "/" id = 0
          ∧ contains ("/d/" +:+ id) resume_url = true.
Proof.
  unfold SavedResume.direct_url.
  destruct (contains "drive.google.com/file/d/" resume_url); [|now left].
  destruct (Re.findall SavedResume.file_id_pattern resume_url) as [|m rest] eqn:E;
    [now left|].
  assert (Hin : In m (Re.findall SavedResume.file_id_pattern resume_url))
    by (rewrite E; now left).
  pose proof (findall_contains _ _ _ Hin) as C.
  apply findall_from_sound in Hin as (prev & s & Hm).
  apply match_here_sound, file_id_pieces in Hm as (id & -> & -> & N & Z).
  right. exists id. auto.
Qed.

Lemma direct_url_on_drive (resume_url : string) :
  Extractor.validate_drive_link resume_url = true →
  Extractor.validate_drive_link (SavedResume.direct_url resume_url) = true.
Proof.
  intros V. unfold SavedResume.direct_url.
  destruct (contains "drive.google.com/file/d/" resume_url); [|exact V].
  destruct (Re.findall SavedResume.file_id_pattern resume_url); [exact V|].
  reflexivity.
Qed.

Section SavedResumeFacts.

Import SavedResume.

Variable requests_get : string → http_response + string.
Variable extract_text_from_pdf : string → string + string.
Variable extract_text_from_docx : string → string + string.
Variable decode_utf8 : string → string.

Local Abbreviation handler :=
  (ats_from_saved_resume requests_get extract_text_from_pdf extract_text_from_docx
     decode_utf8).

Local Abbreviation extraction :=
  (extract extract_text_from_pdf extract_text_from_docx decode_utf8).

Lemma extract_calls resume_url content_type r :
  ¬ In ParseResume (extraction resume_url content_type r).1
  ∧ ∀ url, ¬ In (Download url) (extraction resume_url content_type r).1.
Proof.
  unfold extract.
  repeat match goal with
  | |- context [if ?b then _ else _] => destruct b
  end; simpl; (split; [|intros url]); intros H;
    repeat (destruct H as [H|H]; try discriminate H); exact H.
Qed.

(** X15.  Whatever the stored address and whatever the services answer,
    the handler downloads from no address other than one that
    [validate_drive_link] accepts: an address that starts with
    "https://drive.google.com/" or "https://docs.google.com/". *)
Theorem downloads_only_from_drive (current_user : option (option string)) (url : string) :
  In (Download url) (handler current_user).1 →
  startswith "https://drive.google.com/" url = true
  ∨ startswith "https://docs.google.com/" url = true.
Proof.
  unfold ats_from_saved_resume.
  destruct current_user as [user|]; [|intros []].
  destruct (truthy_str (strip (default EmptyString user))) eqn:T; simpl; [|intros []].
  destruct (Extractor.validate_drive_link (strip (default EmptyString user))) eqn:V;
    simpl; [|intros []].
  apply direct_url_on_drive in V.
  set (target := direct_url (strip (default EmptyString user))) in *.
  assert (Hurl : url = target →
            startswith "https://drive.google.com/" url = true
            ∨ startswith "https://docs.google.com/" url = true).
  { intros ->. unfold Extractor.validate_drive_link in V.
    destruct (truthy_str target); simpl in V; [|discriminate].
    now apply orb_prop in V. }
  destruct (requests_get target) as [r|message]; simpl.
  - destruct (status_code r =? 200)%Z; simpl.
    +       pose proof (extract_calls (strip (default EmptyString user))
                    (lower (default EmptyString (content_type_header r))) r) as [_ ND].
      destruct (extraction _ _ r) as [calls [text|message]]; simpl in *.
      * destruct (truthy_str (strip text)); simpl.
        -- intros [[= <-]|H]; [auto|]. apply in_app_or in H as [H|H].
           ++ now destruct (ND url).
           ++ repeat (destruct H as [H|H]; try discriminate H). destruct H.
        -- intros [[= <-]|H]; [auto | now destruct (ND url)].
      * intros [[= <-]|H]; [auto | now destruct (ND url)].
    + intros [[= <-]|[]]. auto.
  - intros [[= <-]|[]]. auto.
Qed.

(** X16.  The handler calls the parser exactly when it answers with a
    report, and a report is always the score of the parsed map of one and the
    same text, a text that is not blank: no report is made of a document from
    which no text could be extracted. *)
Theorem saved_resume_report (current_user : option (option string)) :
  (In ParseResume (handler current_user).1
   ↔ ∃ parsed_data ats_score, (handler current_user).2 = Success parsed_data ats_score)
  ∧ ∀ parsed_data ats_score,
      (handler current_user).2 = Success parsed_data ats_score →
      ∃ text, truthy_str (strip text) = true
              ∧ parsed_data = Parser.parse_resume text
              ∧ ats_score = Scorer.calculate_ats_score parsed_data text.
Proof.
  unfold ats_from_saved_resume.
  assert (No : ∀ (log : list call) status message,
    ¬ In ParseResume log →
    (In ParseResume log ↔ ∃ pd r, Failure status message = Success pd r)
    ∧ ∀ pd r, Failure status message = Success pd r →
        ∃ text, truthy_str (strip text) = true ∧ pd = Parser.parse_resume text
                ∧ r = Scorer.calculate_ats_score pd text).
  { intros log status message N. split; [split|]; [tauto | |];
      [intros (? & ? & [=]) | intros ? ? [=]]. }
  destruct current_user as [user|]; [|apply No; intros []].
  destruct (truthy_str (strip (default EmptyString user)));
    cbn [negb fst snd]; [|apply No; intros []].
  destruct (Extractor.validate_drive_link (strip (default EmptyString user)));
    cbn [negb fst snd]; [|apply No; intros []].
  set (target := direct_url (strip (default EmptyString user))).
  assert (N1 : ¬ In ParseResume [Download target])
    by (intros [H|[]]; discriminate H).
  destruct (requests_get target) as [r|message]; cbn [fst snd]; [|apply No, N1].
  destruct (status_code r =? 200)%Z; cbn [negb fst snd]; [|apply No, N1].
  pose proof (extract_calls (strip (default EmptyString user))
                (lower (default EmptyString (content_type_header r))) r) as [NP _].
  destruct (extraction _ _ r) as [calls [text|message]]; cbn [fst snd] in *.
  - destruct (truthy_str (strip text)) eqn:T; cbn [negb fst snd].
    + split.
      * split; [eauto|]. intros _. right. apply in_or_app. right. now left.
      * intros pd sc [= <- <-]. exists text. auto.
    + apply No. intros [H|H]; [discriminate H | contradiction].
  - apply No. intros [H|H]; [discriminate H | contradiction].
Qed.

End SavedResumeFacts.

Lemma downloads_only_from_drive_witness :
  let requests_get := λ _ : string,
    inl (SavedResume.HttpResponse 200 (Some "text/plain") "Ada Lovelace") in
  let user := Some (Some "https://drive.google.com/file/d/1AbC_9/view") in
  let url := "https://drive.google.com/uc?export=download&id=1AbC_9" in
  In (SavedResume.Download url)
    (SavedResume.ats_from_saved_resume requests_get (λ _, inr "not a PDF")
       (λ _, inr "not a DOCX") (λ s, s) user).1
  ∧ (startswith "https://drive.google.com/" url = true
     ∨ startswith "https://docs.google.com/" url = true).
Proof.
  intros requests_get user url. split.
  - vm_compute. auto.
  - apply (downloads_only_from_drive requests_get (λ _, inr "not a PDF")
             (λ _, inr "not a DOCX") (λ s, s) user url).
    vm_compute. auto.
Defined.

Lemma saved_resume_report_witness :
  let requests_get := λ _ : string,
    inl (SavedResume.HttpResponse 200 (Some "text/plain") "Ada Lovelace") in
  let user := Some (Some "https://docs.google.com/document/d/1AbC_9/export") in
  let out := SavedResume.ats_from_saved_resume requests_get (λ _, inr "not a PDF")
               (λ _, inr "not a DOCX") (λ s, s) user in
  out.2 = SavedResume.Success (Parser.parse_resume "Ada Lovelace")
            (Scorer.calculate_ats_score (Parser.parse_resume "Ada Lovelace") "Ada Lovelace")
  ∧ In SavedResume.ParseResume out.1
  ∧ ∃ text, truthy_str (strip text) = true
            ∧ Parser.parse_resume "Ada Lovelace" = Parser.parse_resume text
            ∧ Scorer.calculate_ats_score (Parser.parse_resume "Ada Lovelace") "Ada Lovelace"
              = Scorer.calculate_ats_score (Parser.parse_resume "Ada Lovelace") text.
Proof.
  intros requests_get user out.
  assert (E : out.2 = SavedResume.Success (Parser.parse_resume "Ada Lovelace")
                (Scorer.calculate_ats_score (Parser.parse_resume "Ada Lovelace")
                   "Ada Lovelace")) by reflexivity.
  destruct (saved_resume_report requests_get (λ _, inr "not a PDF")
              (λ _, inr "not a DOCX") (λ s, s) user) as [P R].
  split; [exact E|]. split.
  - apply P. eauto.
  - apply (R _ _ E).
Defined.

(** ** What a stored line looks like *)

Lemma lstrip_head s :
  lstrip s = EmptyString ∨ ∃ c t, lstrip s = String c t ∧ is_space c = false.
Proof.
  induction s as [|c s IH]; simpl; [now left|].
  destruct (is_space c) eqn:E; [exact IH | right; eauto].
Qed.

Lemma rstrip_head c t :
  is_space c = false → ∃ r, rstrip (String c t) = String c r.
Proof. intros E. simpl. destruct (rstrip t); [rewrite E|]; eauto. Qed.

Lemma rstrip_cons c s :
  rstrip (String c s) =
  match rstrip s with
  | EmptyString => if is_space c then EmptyString else String c EmptyString
  | String d r => String c (String d r)
  end.
Proof. simpl. now destruct (rstrip s). Qed.

Lemma rstrip_idempotent s : rstrip (rstrip s) = rstrip s.
Proof.
  induction s as [|c s IH]; [reflexivity|]. rewrite rstrip_cons.
  destruct (rstrip s) as [|d r] eqn:R.
  - destruct (is_space c) eqn:E; [reflexivity|]. simpl. now rewrite E.
  - rewrite rstrip_cons, IH. reflexivity.
Qed.

Lemma strip_idempotent s : strip (strip s) = strip s.
Proof.
  unfold strip. destruct (lstrip_head s) as [->|(c & t & -> & E)]; [reflexivity|].
  destruct (rstrip_head c t E) as [r Hr]. rewrite Hr.
  simpl lstrip. rewrite E, <- Hr. apply rstrip_idempotent.
Qed.

Lemma seen_stripped raws l : In l (seen raws) → strip l = l ∧ truthy_str l = true.
Proof.
  unfold seen. intros [Hin T]%filter_In. split; [|exact T].
  apply list_elem_of_In, list_elem_of_fmap in Hin as (raw & -> & _).
  apply strip_idempotent.
Qed.

(** X17.  A line stored in the parsed map is either one of the contact lines
    written by the parser or a line of the input that is stripped of
    surrounding white space, is not empty and is not itself a header line:
    no header and no blank line is ever stored. *)
Theorem stored_line_shape (text l : string) :
  In l (stored_lines (Parser.parse_resume text)) →
  In l (Parser.contact_lines (split_on newline text))
  ∨ (In l (nonblank_lines text) ∧ strip l = l ∧ l ≠ EmptyString
     ∧ Parser.header_key l = None).
Proof.
  intros H. apply list_elem_of_In in H.
  unfold Parser.parse_resume in H. rewrite parse_lines_stored in H.
  apply elem_of_app in H as [H|H]; [left; now apply list_elem_of_In|].
  right. apply list_elem_of_In, filter_In in H as [Hin Hh].
  destruct (seen_stripped _ _ Hin) as [S T].
  split; [exact Hin|]. split; [exact S|]. split.
  - intros ->. discriminate T.
  - unfold is_header in Hh. now destruct (Parser.header_key l).
Qed.

Lemma stored_line_shape_witness :
  let text := "  Ada Lovelace  " +:+ String newline "Skills" in
  In "Ada Lovelace" (stored_lines (Parser.parse_resume text))
  ∧ (In "Ada Lovelace" (Parser.contact_lines (split_on newline text))
     ∨ (In "Ada Lovelace" (nonblank_lines text) ∧ strip "Ada Lovelace" = "Ada Lovelace"
        ∧ "Ada Lovelace" ≠ EmptyString ∧ Parser.header_key "Ada Lovelace" = None)).
Proof.
  intros text. split.
  - vm_compute. auto.
  - apply (stored_line_shape text). vm_compute. auto.
Defined.

(** ** The upload handler, on every request *)

Section UploadFacts.

Import Handler.

Variable extract_text_from_pdf : string → string + string.
Variable extract_text_from_docx : string → string + string.
Variable decode_utf8 : string → string.

Local Abbreviation upload_handler :=
  (upload_resume_for_ats extract_text_from_pdf extract_text_from_docx decode_utf8).

(** X18.  The upload handler calls the parser exactly when it answers with
    a report; the report then carries the name of the file as it was sent,
    and the score is the score of the parsed map of one and the same text.
    A request without user, without file or with an empty file name is
    answered without any call. *)
Theorem upload_report (req : request) :
  (In ParseResume (upload_handler req).1
   ↔ ∃ name parsed_data ats_score,
       (upload_handler req).2 = Success name parsed_data ats_score)
  ∧ (∀ name parsed_data ats_score,
       (upload_handler req).2 = Success name parsed_data ats_score →
       ∃ file text, file_part req = Some file ∧ name = filename file
                    ∧ parsed_data = Parser.parse_resume text
                    ∧ ats_score = Scorer.calculate_ats_score parsed_data text)
  ∧ (authenticated req = false ∨ file_part req = None
     ∨ (∃ file, file_part req = Some file ∧ filename file = EmptyString) →
     (upload_handler req).1 = []).
Proof.
  assert (Third : authenticated req = false ∨ file_part req = None
            ∨ (∃ file, file_part req = Some file ∧ filename file = EmptyString) →
            (upload_handler req).1 = []).
  { unfold upload_resume_for_ats. intros [H|[H|(file & H & E)]].
    - now rewrite H.
    - destruct (authenticated req); [|reflexivity]. now rewrite H.
    - destruct (authenticated req); [|reflexivity]. rewrite H. cbn [negb].
      now rewrite E. }
  enough (Main :
    (In ParseResume (upload_handler req).1
     ↔ ∃ name parsed_data ats_score,
         (upload_handler req).2 = Success name parsed_data ats_score)
    ∧ (∀ name parsed_data ats_score,
         (upload_handler req).2 = Success name parsed_data ats_score →
         ∃ file text, file_part req = Some file ∧ name = filename file
                      ∧ parsed_data = Parser.parse_resume text
                      ∧ ats_score = Scorer.calculate_ats_score parsed_data text))
    by (destruct Main; auto).
  clear Third. unfold upload_resume_for_ats.
  assert (No : ∀ (log : list call) status message (o : option upload),
    ¬ In ParseResume log →
    (In ParseResume log ↔ ∃ name pd r, Failure status message = Success name pd r)
    ∧ (∀ name pd r, Failure status message = Success name pd r →
         ∃ file text, o = Some file ∧ name = filename file
                      ∧ pd = Parser.parse_resume text
                      ∧ r = Scorer.calculate_ats_score pd text)).
  { intros log status message o N. split; [split|]; [tauto | |];
      [intros (? & ? & ? & [=]) | intros ? ? ? [=]]. }
  destruct (authenticated req); cbn [negb fst snd]; [|apply No; intros []].
  destruct (file_part req) as [file|]; cbn [fst snd]; [|apply No; intros []].
  destruct (String.eqb (filename file) EmptyString); cbn [fst snd];
    [apply No; intros []|].
  unfold extract.
  repeat match goal with
  | |- context [if ?b then _ else _] => destruct b
  | |- context [match ?x with inl _ => _ | inr _ => _ end] => destruct x
  end; cbn [fst snd];
  try (apply No; intros H; repeat (destruct H as [H|H]; try discriminate H);
       exact H).
  all: split; [split; [eauto | intros _; simpl; auto] |];
    intros name pd r [= <- <- <-]; eauto 10.
Qed.

End UploadFacts.

Lemma upload_report_witness :
  let req := Handler.Request true (Some (Handler.Upload "CV.TXT" "Ada Lovelace")) in
  let out := Handler.upload_resume_for_ats (λ _, inr "not a PDF") (λ _, inr "not a DOCX")
               (λ s, s) req in
  out.2 = Handler.Success "CV.TXT" (Parser.parse_resume "Ada Lovelace")
            (Scorer.calculate_ats_score (Parser.parse_resume "Ada Lovelace") "Ada Lovelace")
  ∧ In Handler.ParseResume out.1.
Proof.
  intros req out.
  assert (E : out.2 = Handler.Success "CV.TXT" (Parser.parse_resume "Ada Lovelace")
                (Scorer.calculate_ats_score (Parser.parse_resume "Ada Lovelace")
                   "Ada Lovelace")) by reflexivity.
  split; [exact E|].
  apply (upload_report (λ _, inr "not a PDF") (λ _, inr "not a DOCX") (λ s, s) req).
  eauto.
Defined.
